(** * GW2ML native MumbleLink binding: a model of [nOpen] and [nClose]

    Shallow embedding of
    [src/main/c/com_github_gw2toolbelt_gw2ml_MumbleLink.c].

    The C file is a sequence of calls into three external worlds: the
    Win32 file-mapping API, the C allocator and the JNI function table.
    The embedding keeps the call sequence of the source and makes the
    three worlds explicit:

    - the operating system is a small state machine (live file-mapping
      handles, mapped views); whether an acquisition succeeds is decided
      by an oracle [Env], a release succeeds exactly when its resource is
      live;
    - the C heap maps addresses to [GW2MLinstance] cells; reading, writing
      or freeing through an address that is not allocated is undefined
      behaviour, represented by the outcome [Fault];
    - JNI functions are oracles of their arguments, null arguments
      included; the only JVM state the model tracks is the exception the
      native code makes pending through [ThrowNew];
    - every external call is appended, with its arguments and its result,
      to a chronological [trace]. *)

From Stdlib Require Import ZArith.
From stdpp Require Import gmap strings list fin_maps fin_sets.

Local Open Scope Z_scope.

(** ** Constants *)

(** [#define MUMBLE_LINK_BYTES 5460] *)
Definition MUMBLE_LINK_BYTES : Z := 5460.

(** [NULL], for handles, pointers and JNI references alike. *)
Definition NULL : Z := 0.

(** Values of [<windows.h>], which the source includes and does not
    define: [FILE_MAP_READ] is [SECTION_MAP_READ] (0x0004),
    [PAGE_READWRITE] is 0x04 and [INVALID_HANDLE_VALUE] is
    [(HANDLE)-1]. *)
Definition FILE_MAP_READ : Z := 4.
Definition PAGE_READWRITE : Z := 4.
Definition INVALID_HANDLE_VALUE : Z := -1.

(** ** Data *)

(** [typedef struct GW2MLinstance { HANDLE hFileMapping; void* linkedMem; }] *)
Record GW2MLinstance := {
  hFileMapping : Z;
  linkedMem : Z
}.

(** One entry per external call: arguments first, result last. *)
Inductive Event :=
| EvGetStringUTFChars (str : Z) (chars : string)
| EvReleaseStringUTFChars (str : Z) (chars : string)
| EvOpenFileMappingA (access : Z) (inherit : bool) (name : string) (ret : Z)
| EvCreateFileMappingA (hFile attrs protect sizeHigh sizeLow : Z)
                       (name : string) (ret : Z)
| EvMapViewOfFile (h access offHigh offLow bytes : Z) (ret : Z)
| EvUnmapViewOfFile (addr : Z) (ret : bool)
| EvCloseHandle (h : Z) (ret : bool)
| EvMalloc (ret : Z)
| EvFree (p : Z)
| EvNewDirectByteBuffer (addr capacity : Z) (ret : Z)
| EvFindClass (name : string) (ret : Z)
| EvGetMethodID (cls : Z) (name sig : string) (ret : Z)
| EvNewObject (cls cid : Z) (address buffer handle : Z) (ret : Z)
| EvThrowNew (cls : Z) (message : string).

(** The state the native code runs in. *)
Record World := {
  os_handles : gset Z;               (* live file-mapping handles *)
  os_views : gmap Z Z;               (* view base address -> bytes mapped *)
  heap : gmap Z GW2MLinstance;       (* blocks handed out by malloc *)
  jvm_pending : option (Z * string); (* exception the native code made
                                        pending through ThrowNew *)
  trace : list Event                 (* external calls so far *)
}.

(** What the environment decides: the outcome of every acquisition and of
    every JNI lookup or construction. *)
Record Env := {
  utf_chars : Z -> string;
  can_open : string -> bool;
  can_create : string -> bool;
  can_map : Z -> bool;
  can_malloc : bool;
  jni_NewDirectByteBuffer : Z -> Z -> Z;
  jni_FindClass : string -> Z;
  jni_GetMethodID : Z -> string -> string -> Z;
  jni_NewObject : Z -> Z -> Z -> Z -> Z -> Z
}.

(** ** The monad of native code: state, and undefined behaviour *)

Inductive Result (A : Type) :=
| Ok (a : A) (w : World)
| Fault (w : World).
Arguments Ok {A} a w.
Arguments Fault {A} w.

Definition M (A : Type) : Type := World -> Result A.

Definition ret {A} (a : A) : M A := fun w => Ok a w.

Definition bind {A B} (k : A -> M B) (m : M A) : M B :=
  fun w => match m w with
           | Ok a w' => k a w'
           | Fault w' => Fault w'
           end.

(** stdpp's monad notations: [x ← m; k] and [m;; k]. *)
#[global] Instance M_ret : MRet M := @ret.
#[global] Instance M_bind : MBind M := @bind.

(** [if (c) stmt;] with no else branch. *)
Definition when {A} (c : bool) (m : M A) : M unit :=
  if c then m;; ret tt else ret tt.

(** ** State updates *)

Definition set_handles (H : gset Z) (w : World) : World :=
  {| os_handles := H; os_views := os_views w; heap := heap w;
     jvm_pending := jvm_pending w; trace := trace w |}.

Definition set_views (V : gmap Z Z) (w : World) : World :=
  {| os_handles := os_handles w; os_views := V; heap := heap w;
     jvm_pending := jvm_pending w; trace := trace w |}.

Definition set_heap (m : gmap Z GW2MLinstance) (w : World) : World :=
  {| os_handles := os_handles w; os_views := os_views w; heap := m;
     jvm_pending := jvm_pending w; trace := trace w |}.

Definition set_pending (p : option (Z * string)) (w : World) : World :=
  {| os_handles := os_handles w; os_views := os_views w; heap := heap w;
     jvm_pending := p; trace := trace w |}.

Definition log (e : Event) (w : World) : World :=
  {| os_handles := os_handles w; os_views := os_views w; heap := heap w;
     jvm_pending := jvm_pending w; trace := trace w ++ [e] |}.

(** A handle, view address or heap address that is in use nowhere and is
    neither [NULL] nor [INVALID_HANDLE_VALUE]. *)
Definition fresh_id (used : gset Z) : Z :=
  fresh ({[NULL; INVALID_HANDLE_VALUE]} ∪ used).

(** [h] is a handle the process holds; [NULL] never is. *)
Definition live_handle (w : World) (h : Z) : bool :=
  bool_decide (h ∈ os_handles w) && negb (h =? NULL).

(** [addr] is the base address of a view the process has mapped. *)
Definition mapped_view (w : World) (addr : Z) : bool :=
  bool_decide (is_Some (os_views w !! addr)).

(** The block [p] points to, if [p] is a valid pointer: not [NULL], and
    allocated. *)
Definition deref (w : World) (p : Z) : option GW2MLinstance :=
  if p =? NULL then None else heap w !! p.

(** ** The external calls *)

Section Calls.
Variable env : Env.

(** *** Win32 file mappings *)

Definition OpenFileMappingA (access : Z) (inherit : bool) (name : string)
  : M Z := fun w =>
  if can_open env name then
    let h := fresh_id (os_handles w) in
    Ok h (log (EvOpenFileMappingA access inherit name h)
            (set_handles ({[h]} ∪ os_handles w) w))
  else Ok NULL (log (EvOpenFileMappingA access inherit name NULL) w).

Definition CreateFileMappingA (hFile attrs protect sizeHigh sizeLow : Z)
    (name : string) : M Z := fun w =>
  if can_create env name then
    let h := fresh_id (os_handles w) in
    Ok h (log (EvCreateFileMappingA hFile attrs protect sizeHigh sizeLow name h)
            (set_handles ({[h]} ∪ os_handles w) w))
  else Ok NULL
         (log (EvCreateFileMappingA hFile attrs protect sizeHigh sizeLow name NULL) w).

(** Mapping needs a live handle: on [NULL] or on a closed handle the
    call fails and returns [NULL]. *)
Definition MapViewOfFile (h access offHigh offLow bytes : Z) : M Z := fun w =>
  if live_handle w h && can_map env h then
    let a := fresh_id (dom (os_views w)) in
    Ok a (log (EvMapViewOfFile h access offHigh offLow bytes a)
            (set_views (<[a := bytes]> (os_views w)) w))
  else Ok NULL (log (EvMapViewOfFile h access offHigh offLow bytes NULL) w).

(** Releases report failure, and change nothing, when the resource is
    not live. *)
Definition UnmapViewOfFile (addr : Z) : M bool := fun w =>
  if mapped_view w addr then
    Ok true (log (EvUnmapViewOfFile addr true)
               (set_views (delete addr (os_views w)) w))
  else Ok false (log (EvUnmapViewOfFile addr false) w).

Definition CloseHandle (h : Z) : M bool := fun w =>
  if live_handle w h then
    Ok true (log (EvCloseHandle h true) (set_handles (os_handles w ∖ {[h]}) w))
  else Ok false (log (EvCloseHandle h false) w).

(** *** The C heap *)

(** [malloc(sizeof(GW2MLinstance))]: a fresh block with indeterminate
    contents (here zeros), or [NULL]. *)
Definition malloc : M Z := fun w =>
  if can_malloc env then
    let p := fresh_id (dom (heap w)) in
    Ok p (log (EvMalloc p)
            (set_heap (<[p := {| hFileMapping := 0; linkedMem := 0 |}]> (heap w)) w))
  else Ok NULL (log (EvMalloc NULL) w).

(** [p->hFileMapping = v] *)
Definition store_hFileMapping (p v : Z) : M unit := fun w =>
  match deref w p with
  | Some i =>
      Ok tt (set_heap (<[p := {| hFileMapping := v; linkedMem := linkedMem i |}]>
                         (heap w)) w)
  | None => Fault w
  end.

(** [p->linkedMem = v] *)
Definition store_linkedMem (p v : Z) : M unit := fun w =>
  match deref w p with
  | Some i =>
      Ok tt (set_heap (<[p := {| hFileMapping := hFileMapping i; linkedMem := v |}]>
                         (heap w)) w)
  | None => Fault w
  end.

(** [p->linkedMem] and [p->hFileMapping] as r-values *)
Definition load_linkedMem (p : Z) : M Z := fun w =>
  match deref w p with
  | Some i => Ok (linkedMem i) w
  | None => Fault w
  end.

Definition load_hFileMapping (p : Z) : M Z := fun w =>
  match deref w p with
  | Some i => Ok (hFileMapping i) w
  | None => Fault w
  end.

Definition free (p : Z) : M unit := fun w =>
  match deref w p with
  | Some _ => Ok tt (log (EvFree p) (set_heap (delete p (heap w)) w))
  | None => Fault w
  end.

(** *** JNI *)

(** A JNI call is modelled by its result alone, taken from [env] and
    logged. Two things a JVM does are left out: the exception it makes
    pending itself when a lookup or a construction fails (a [NULL] from
    [FindClass], [GetMethodID] or [NewObject] comes with one), and
    whatever it does when it is handed a null class or method id, which
    JNI leaves undefined. Statements about [jvm_pending] are therefore
    about the exceptions of the native code only, and what a call on a
    null class or method id returns is whatever [env] says. *)

Definition GetStringUTFChars (str : Z) : M string := fun w =>
  let s := utf_chars env str in Ok s (log (EvGetStringUTFChars str s) w).

Definition ReleaseStringUTFChars (str : Z) (chars : string) : M unit :=
  fun w => Ok tt (log (EvReleaseStringUTFChars str chars) w).

Definition NewDirectByteBuffer (addr capacity : Z) : M Z := fun w =>
  let b := jni_NewDirectByteBuffer env addr capacity in
  Ok b (log (EvNewDirectByteBuffer addr capacity b) w).

Definition FindClass (name : string) : M Z := fun w =>
  let c := jni_FindClass env name in Ok c (log (EvFindClass name c) w).

Definition GetMethodID (cls : Z) (name sig : string) : M Z := fun w =>
  let m := jni_GetMethodID env cls name sig in
  Ok m (log (EvGetMethodID cls name sig m) w).

Definition NewObject (cls cid address buffer handle : Z) : M Z := fun w =>
  let o := jni_NewObject env cls cid address buffer handle in
  Ok o (log (EvNewObject cls cid address buffer handle o) w).

(** [ThrowNew] makes an exception of class [cls] with [message] pending;
    it does not transfer control. *)
Definition ThrowNew (cls : Z) (message : string) : M Z := fun w =>
  Ok 0 (log (EvThrowNew cls message) (set_pending (Some (cls, message)) w)).

(** ** The source *)

(** [FindClass] then [ThrowNew]; the [jint] of [ThrowNew] is returned and
    no caller looks at it. *)
Definition throwIllegalStateException (message : string) : M Z :=
  clazz ← FindClass "java/lang/NoClassDefFoundError";
  ThrowNew clazz message.

(** [Java_com_github_gw2toolbelt_gw2ml_MumbleLink_nOpen]. [clazz] is
    unused. A [throwIllegalStateException] does not leave the function:
    the statements after it run. *)
Definition nOpen (clazz handle : Z) : M Z :=
  handleName ← GetStringUTFChars handle;
  h0 ← OpenFileMappingA FILE_MAP_READ false handleName;
  hFileMapping ←
    (if h0 =? NULL then
       h1 ← CreateFileMappingA INVALID_HANDLE_VALUE NULL PAGE_READWRITE 0
               MUMBLE_LINK_BYTES handleName;
       ReleaseStringUTFChars handle handleName;;
       when (h1 =? NULL)
         (throwIllegalStateException "Failed to create FileMapping.");;
       ret h1
     else
       ReleaseStringUTFChars handle handleName;;
       ret h0);
  linkedMem ← MapViewOfFile hFileMapping FILE_MAP_READ 0 0 MUMBLE_LINK_BYTES;
  if linkedMem =? NULL then
    CloseHandle hFileMapping;;
    (* hFileMapping = NULL;  a store to a local that is not read again *)
    ret NULL
  else
    instance ← malloc;
    store_hFileMapping instance hFileMapping;;
    store_linkedMem instance linkedMem;;
    buffer ← NewDirectByteBuffer linkedMem MUMBLE_LINK_BYTES;
    when (buffer =? NULL)
      (UnmapViewOfFile linkedMem;;
       CloseHandle hFileMapping;;
       when (hFileMapping =? NULL)
         (throwIllegalStateException "Failed to create new direct ByteBuffer."));;
    cls ← FindClass "com/github/gw2toolbelt/gw2ml/MumbleLink";
    when (cls =? NULL)
      (UnmapViewOfFile linkedMem;;
       CloseHandle hFileMapping;;
       when (hFileMapping =? NULL)
         (throwIllegalStateException "Failed to find MumbleLink class."));;
    cid ← GetMethodID cls "<init>" "(JLjava/nio/ByteBuffer;Ljava/lang/String;)V";
    when (cid =? NULL)
      (UnmapViewOfFile linkedMem;;
       CloseHandle hFileMapping;;
       when (hFileMapping =? NULL)
         (throwIllegalStateException "Failed to find MumbleLink constructor."));;
    NewObject cls cid instance buffer handle.

(** [Java_com_github_gw2toolbelt_gw2ml_MumbleLink_nClose]. [address] is
    the [jlong] cast back to a [GW2MLinstance*]. *)
Definition nClose (clazz address : Z) : M unit :=
  let instance := address in
  v ← load_linkedMem instance;
  UnmapViewOfFile v;;
  h ← load_hFileMapping instance;
  CloseHandle h;;
  free instance.

End Calls.

(** ** Observations *)

(** The calls made between state [w] and a later state [w']. *)
Definition new_events (w w' : World) : list Event :=
  drop (length (trace w)) (trace w').

(** The state an outcome leaves behind, whether the call returned or went
    wrong. *)
Definition final {A} (r : Result A) : World :=
  match r with Ok _ w => w | Fault w => w end.

(** The calls that give a resource back to the operating system. *)
Definition is_release (e : Event) : bool :=
  match e with
  | EvUnmapViewOfFile _ _ | EvCloseHandle _ _ => true
  | _ => false
  end.

(** [CloseHandle] on the handle [h], whatever its result. *)
Definition closes (h : Z) (e : Event) : bool :=
  match e with
  | EvCloseHandle h' _ => h' =? h
  | _ => false
  end.

(** [UnmapViewOfFile] on the address [addr], whatever its result. *)
Definition unmaps (addr : Z) (e : Event) : bool :=
  match e with
  | EvUnmapViewOfFile a _ => a =? addr
  | _ => false
  end.

(** [NewDirectByteBuffer], whatever its arguments and result. *)
Definition wraps (e : Event) : bool :=
  match e with
  | EvNewDirectByteBuffer _ _ _ => true
  | _ => false
  end.

Definition is_free (e : Event) : bool :=
  match e with
  | EvFree _ => true
  | _ => false
  end.

(** Every exception [e] throws, if it throws one, is of class [cls]. *)
Definition throws_only (cls : Z) (e : Event) : Prop :=
  match e with
  | EvThrowNew c _ => c = cls
  | _ => True
  end.

(** ** Invariants of a run *)

(** [m] takes every state to an [R]-related one, whether it returns or
    goes wrong. *)
Definition respects (R : relation World) {A} (m : M A) : Prop :=
  ∀ w, R w (final (m w)).

(** The class [throwIllegalStateException] looks up. *)
Definition error_class (env : Env) : Z :=
  jni_FindClass env "java/lang/NoClassDefFoundError".

Definition benign (env : Env) (e : Event) : Prop :=
  is_free e = false ∧ throws_only (error_class env) e.

(** From [w] to [w']: calls were only added, none of them [free], every
    exception thrown is of [error_class], and no heap block went away;
    blocks handed out by [malloc] on the way are still allocated. *)
Definition evolves (env : Env) (w w' : World) : Prop :=
  ∃ evs, trace w' = trace w ++ evs
    ∧ Forall (benign env) evs
    ∧ dom (heap w) ⊆ dom (heap w')
    ∧ (∀ p, EvMalloc p ∈ evs → p ≠ NULL → p ∈ dom (heap w'))
    ∧ (jvm_pending w' = jvm_pending w
       ∨ ∃ msg, jvm_pending w' = Some (error_class env, msg)).

(** ** Concrete environments and states *)

(** A JVM and an operating system in which every step succeeds: the named
    object exists, and lookups on a null class or method fail. *)
Definition env_ok : Env :=
  {| utf_chars := fun _ => "MumbleLink"%string;
     can_open := fun _ => true;
     can_create := fun _ => true;
     can_map := fun _ => true;
     can_malloc := true;
     jni_NewDirectByteBuffer := fun _ _ => 600;
     jni_FindClass := fun _ => 700;
     jni_GetMethodID := fun cls _ _ => if cls =? NULL then NULL else 800;
     jni_NewObject := fun cls cid _ _ _ =>
       if (cls =? NULL) || (cid =? NULL) then NULL else 900 |}.


(** The object opens, mapping it fails. *)
Definition env_map_fails : Env :=
  {| utf_chars := utf_chars env_ok;
     can_open := can_open env_ok;
     can_create := can_create env_ok;
     can_map := fun _ => false;
     can_malloc := can_malloc env_ok;
     jni_NewDirectByteBuffer := jni_NewDirectByteBuffer env_ok;
     jni_FindClass := jni_FindClass env_ok;
     jni_GetMethodID := jni_GetMethodID env_ok;
     jni_NewObject := jni_NewObject env_ok |}.

(** Mapping succeeds, the JVM returns no direct byte buffer. *)
Definition env_no_buffer : Env :=
  {| utf_chars := utf_chars env_ok;
     can_open := can_open env_ok;
     can_create := can_create env_ok;
     can_map := can_map env_ok;
     can_malloc := can_malloc env_ok;
     jni_NewDirectByteBuffer := fun _ _ => NULL;
     jni_FindClass := jni_FindClass env_ok;
     jni_GetMethodID := jni_GetMethodID env_ok;
     jni_NewObject := jni_NewObject env_ok |}.

(** No direct byte buffer, and the constructor is not found either. *)
Definition env_no_buffer_no_ctor : Env :=
  {| utf_chars := utf_chars env_ok;
     can_open := can_open env_ok;
     can_create := can_create env_ok;
     can_map := can_map env_ok;
     can_malloc := can_malloc env_ok;
     jni_NewDirectByteBuffer := fun _ _ => NULL;
     jni_FindClass := jni_FindClass env_ok;
     jni_GetMethodID := fun _ _ _ => NULL;
     jni_NewObject := jni_NewObject env_ok |}.

(** A process that already holds four handles and two views. *)
Definition host_world : World :=
  {| os_handles := {[1; 2; 3; 4]};
     os_views := {[1 := 4096; 2 := 64]};
     heap := ∅;
     jvm_pending := None;
     trace := [] |}.

(** A process holding one session: handle 5, view 3, session block 1. *)
Definition session_world : World :=
  {| os_handles := {[1; 2; 3; 4; 5]};
     os_views := {[1 := 4096; 2 := 64; 3 := MUMBLE_LINK_BYTES]};
     heap := {[1 := {| hFileMapping := 5; linkedMem := 3 |}]};
     jvm_pending := None;
     trace := [] |}.

(** The state in which a successful [nOpen] leaves [host_world]. *)
Definition opened_world : World :=
  {| os_handles := {[1; 2; 3; 4; 5]};
     os_views := {[1 := 4096; 2 := 64; 3 := MUMBLE_LINK_BYTES]};
     heap := {[1 := {| hFileMapping := 5; linkedMem := 3 |}]};
     jvm_pending := None;
     trace :=
       [EvGetStringUTFChars 9 "MumbleLink";
        EvOpenFileMappingA FILE_MAP_READ false "MumbleLink" 5;
        EvReleaseStringUTFChars 9 "MumbleLink";
        EvMapViewOfFile 5 FILE_MAP_READ 0 0 MUMBLE_LINK_BYTES 3;
        EvMalloc 1;
        EvNewDirectByteBuffer 3 MUMBLE_LINK_BYTES 600;
        EvFindClass "com/github/gw2toolbelt/gw2ml/MumbleLink" 700;
        EvGetMethodID 700 "<init>"
          "(JLjava/nio/ByteBuffer;Ljava/lang/String;)V" 800;
        EvNewObject 700 800 1 600 9 900] |}.

(** A session block whose handle and view are no longer live. *)
Definition stale_world : World :=
  {| os_handles := {[1; 2; 3; 4]};
     os_views := {[1 := 4096; 2 := 64]};
     heap := {[1 := {| hFileMapping := 5; linkedMem := 3 |}]};
     jvm_pending := None;
     trace := [] |}.

(** ** Further observations *)

Definition is_throw (e : Event) : bool :=
  match e with
  | EvThrowNew _ _ => true
  | _ => false
  end.

(** From [w] to [w']: calls were only added, none of them a [ThrowNew],
    and the handles [H0], the views [V0] and the heap blocks [M0], if
    they were all there in [w], are all there, unchanged, in [w']. *)
Definition undisturbed (H0 : gset Z) (V0 : gmap Z Z)
    (M0 : gmap Z GW2MLinstance) (w w' : World) : Prop :=
  (∃ evs, trace w' = trace w ++ evs ∧ Forall (λ e, is_throw e = false) evs)
  ∧ (H0 ⊆ os_handles w → H0 ⊆ os_handles w')
  ∧ (V0 ⊆ os_views w → V0 ⊆ os_views w')
  ∧ (M0 ⊆ heap w → M0 ⊆ heap w').

(** Every step succeeds except the construction of the wrapper object. *)
Definition env_no_object : Env :=
  {| utf_chars := utf_chars env_ok;
     can_open := can_open env_ok;
     can_create := can_create env_ok;
     can_map := can_map env_ok;
     can_malloc := can_malloc env_ok;
     jni_NewDirectByteBuffer := jni_NewDirectByteBuffer env_ok;
     jni_FindClass := jni_FindClass env_ok;
     jni_GetMethodID := jni_GetMethodID env_ok;
     jni_NewObject := fun _ _ _ _ _ => NULL |}.

(** The object is mapped and [malloc] returns [NULL]. *)
Definition env_no_memory : Env :=
  {| utf_chars := utf_chars env_ok;
     can_open := can_open env_ok;
     can_create := can_create env_ok;
     can_map := can_map env_ok;
     can_malloc := false;
     jni_NewDirectByteBuffer := jni_NewDirectByteBuffer env_ok;
     jni_FindClass := jni_FindClass env_ok;
     jni_GetMethodID := jni_GetMethodID env_ok;
     jni_NewObject := jni_NewObject env_ok |}.

(** A process holding two sessions: handles 5 and 6, views 3 and 4,
    session blocks 1 and 2. *)
Definition two_sessions_world : World :=
  {| os_handles := {[1; 2; 3; 4; 5; 6]};
     os_views := {[1 := 4096; 2 := 64; 3 := MUMBLE_LINK_BYTES;
                   4 := MUMBLE_LINK_BYTES]};
     heap := {[1 := {| hFileMapping := 5; linkedMem := 3 |};
               2 := {| hFileMapping := 6; linkedMem := 4 |}]};
     jvm_pending := None;
     trace := [] |}.

(** From [w] to [w']: calls were only added, and each of them passes
    [p]. *)
Definition emits_only (p : Event → bool) (w w' : World) : Prop :=
  ∃ evs, trace w' = trace w ++ evs ∧ Forall (λ e, p e = true) evs.

(** The calls that are given the characters of the name. *)
Definition reads_chars (e : Event) : bool :=
  match e with
  | EvOpenFileMappingA _ _ _ _ | EvCreateFileMappingA _ _ _ _ _ _ _ => true
  | _ => false
  end.

(** The calls that obtain or give back the characters of the name. *)
Definition string_call (e : Event) : bool :=
  match e with
  | EvGetStringUTFChars _ _ | EvReleaseStringUTFChars _ _ => true
  | _ => false
  end.

(** What [nOpen] may ask of the operating system and of the JVM: the
    object is opened for reading, created read-write over 5460 bytes of
    the paging file, mapped for reading over its 5460 bytes from offset
    0, and wrapped in a buffer of 5460 bytes. *)
Definition asks_as_nOpen (e : Event) : bool :=
  match e with
  | EvOpenFileMappingA access inherit _ _ =>
      (access =? FILE_MAP_READ) && negb inherit
  | EvCreateFileMappingA hFile attrs protect sizeHigh sizeLow _ _ =>
      (hFile =? INVALID_HANDLE_VALUE) && (attrs =? NULL)
      && (protect =? PAGE_READWRITE)
      && (sizeHigh =? 0) && (sizeLow =? MUMBLE_LINK_BYTES)
  | EvMapViewOfFile _ access offHigh offLow bytes _ =>
      (access =? FILE_MAP_READ) && (offHigh =? 0) && (offLow =? 0)
      && (bytes =? MUMBLE_LINK_BYTES)
  | EvNewDirectByteBuffer _ capacity _ => capacity =? MUMBLE_LINK_BYTES
  | _ => true
  end.

(** Neither obtains, reads nor gives back the characters of the name. *)
Definition leaves_chars (e : Event) : bool :=
  negb (string_call e || reads_chars e).

(** ** Reasoning support *)

Lemma fresh_id_fresh (used : gset Z) : fresh_id used ∉ used.
Proof.
  unfold fresh_id. intros Hin.
  apply (is_fresh ({[NULL; INVALID_HANDLE_VALUE]} ∪ used)).
  by apply elem_of_union_r.
Qed.

Lemma fresh_id_not_NULL (used : gset Z) : fresh_id used ≠ NULL.
Proof.
  unfold fresh_id. intros Heq.
  apply (is_fresh ({[NULL; INVALID_HANDLE_VALUE]} ∪ used)).
  rewrite Heq. apply elem_of_union_l, elem_of_union_l. by apply elem_of_singleton.
Qed.

Lemma fresh_id_eqb_NULL (used : gset Z) : (fresh_id used =? NULL) = false.
Proof. apply Z.eqb_neq, fresh_id_not_NULL. Qed.

Lemma new_events_app (w w' : World) (evs : list Event) :
  trace w' = trace w ++ evs → new_events w w' = evs.
Proof. unfold new_events. intros ->. by rewrite drop_app_length. Qed.

Lemma live_handle_NULL w : live_handle w NULL = false.
Proof. unfold live_handle. cbn. apply andb_false_r. Qed.

Lemma live_handle_acquired w held :
  os_handles w = {[fresh_id held]} ∪ held →
  live_handle w (fresh_id held) = true.
Proof.
  intros Hw. unfold live_handle. rewrite fresh_id_eqb_NULL, Hw.
  rewrite bool_decide_eq_true_2; [done|].
  by apply elem_of_union_l, elem_of_singleton.
Qed.

Lemma deref_NULL w : deref w NULL = None.
Proof. reflexivity. Qed.

Lemma deref_fresh w used i :
  heap w !! fresh_id used = Some i → deref w (fresh_id used) = Some i.
Proof. intros Hw. unfold deref. by rewrite fresh_id_eqb_NULL. Qed.

(** *** Running a program one statement at a time *)

Lemma run_bind {A B} (m : M A) (k : A → M B) (w : World) :
  (m ≫= k) w =
  match m w with Ok a w' => k a w' | Fault w' => Fault w' end.
Proof. reflexivity. Qed.

Lemma run_bind_assoc {A B C} (m : M A) (k : A → M B) (k' : B → M C) w :
  ((m ≫= k) ≫= k') w = (m ≫= λ a, k a ≫= k') w.
Proof. rewrite !run_bind. by destruct (m w). Qed.

Lemma run_ret {A} (a : A) w : ret a w = Ok a w.
Proof. reflexivity. Qed.

Lemma when_true {A} (m : M A) : when true m = (m ≫= λ _, ret tt).
Proof. reflexivity. Qed.

Lemma when_false {A} (m : M A) : when false m = ret tt.
Proof. reflexivity. Qed.

Ltac tidy :=
  cbv beta iota zeta;
  cbn [andb os_handles os_views heap jvm_pending trace
       log set_handles set_views set_heap set_pending];
  rewrite ?fresh_id_eqb_NULL;
  cbv beta iota zeta.

(** One statement forward: bring the first call to the head of the
    program and expose its outcome. *)
Ltac step :=
  rewrite ?run_bind_assoc; rewrite run_bind; rewrite ?run_ret; tidy.

(** The trace of an explicit state, as [trace w ++ events]. *)
Ltac trace_eq :=
  cbn [trace log set_handles set_views set_heap set_pending];
  rewrite <- ?app_assoc; reflexivity.

Ltac in_list :=
  cbn [app]; repeat first [apply list_elem_of_here | apply list_elem_of_further].

(** *** Composing invariants *)

Section Respects.
Context (R : relation World) `{!PreOrder R}.

Lemma respects_ret {A} (a : A) : respects R (ret a).
Proof. intros w. reflexivity. Qed.

Lemma respects_bind {A B} (m : M A) (k : A → M B) :
  respects R m → (∀ a, respects R (k a)) → respects R (m ≫= k).
Proof.
  intros Hm Hk w. rewrite run_bind. specialize (Hm w).
  destruct (m w) as [a w1|w1]; cbn in *; [|done].
  etransitivity; [exact Hm | apply Hk].
Qed.

Lemma respects_when {A} (c : bool) (m : M A) :
  respects R m → respects R (when c m).
Proof.
  intros Hm. unfold when. destruct c; [|apply respects_ret].
  apply respects_bind; [done | intros; apply respects_ret].
Qed.
End Respects.

Create HintDb evolve discriminated.

(** Decompose a program along its binds and branches, closing the leaves
    with the lemmas of the external calls. *)
Ltac evolve :=
  repeat first
    [ solve [auto with evolve]
    | apply respects_ret; solve [typeclasses eauto]
    | apply respects_when; [typeclasses eauto|]
    | apply respects_bind; [typeclasses eauto| |intros ?]
    | match goal with
      | |- respects _ (if ?c then _ else _) => destruct c
      end ].

#[global] Instance evolves_preorder env : PreOrder (evolves env).
Proof.
  split.
  - intros w. exists []. rewrite app_nil_r.
    split; [done|]. split; [constructor|]. split; [done|]. split; [|by left].
    intros p Hp. by apply elem_of_nil in Hp.
  - intros w1 w2 w3 (e1 & T1 & B1 & D1 & M1 & P1) (e2 & T2 & B2 & D2 & M2 & P2).
    exists (e1 ++ e2).
    split; [|split; [|split; [|split]]].
    + by rewrite T2, T1, app_assoc.
    + by apply Forall_app.
    + by etransitivity.
    + intros p Hp Hn. apply elem_of_app in Hp as [Hp|Hp]; [|by apply M2].
      apply D2, M1; done.
    + destruct P2 as [P2|P2]; [rewrite P2; exact P1 | by right].
Qed.

(** ** The external calls, one by one *)

Section Evolution.
Variable env : Env.

(** A call that logs one benign event, is not [malloc], and leaves heap
    and pending exception alone. *)
Lemma evolves_log (e : Event) (w w' : World) :
  benign env e → (∀ p, e ≠ EvMalloc p) →
  trace w' = trace w ++ [e] → heap w' = heap w →
  jvm_pending w' = jvm_pending w → evolves env w w'.
Proof.
  intros He Hm Ht Hh Hp. exists [e].
  split; [done|]. split; [by apply Forall_singleton|].
  split; [by rewrite Hh|]. split; [|by left].
  intros p Hin. apply list_elem_of_singleton in Hin. by destruct (Hm p).
Qed.

Ltac one_event :=
  cbv zeta; cbn [final];
  match goal with
  | |- evolves _ _ (log ?e _) =>
      apply (evolves_log e); [by split | done | reflexivity ..]
  end.

Lemma OpenFileMappingA_evolves access inherit name :
  respects (evolves env) (OpenFileMappingA env access inherit name).
Proof. intros w. unfold OpenFileMappingA. case_match; one_event. Qed.

Lemma CreateFileMappingA_evolves hFile attrs protect sizeHigh sizeLow name :
  respects (evolves env)
    (CreateFileMappingA env hFile attrs protect sizeHigh sizeLow name).
Proof. intros w. unfold CreateFileMappingA. case_match; one_event. Qed.

Lemma MapViewOfFile_evolves h access offHigh offLow bytes :
  respects (evolves env) (MapViewOfFile env h access offHigh offLow bytes).
Proof. intros w. unfold MapViewOfFile. destruct (_ && _); one_event. Qed.

Lemma UnmapViewOfFile_evolves addr : respects (evolves env) (UnmapViewOfFile addr).
Proof. intros w. unfold UnmapViewOfFile. case_match; one_event. Qed.

Lemma CloseHandle_evolves h : respects (evolves env) (CloseHandle h).
Proof. intros w. unfold CloseHandle. case_match; one_event. Qed.

Lemma malloc_evolves : respects (evolves env) (malloc env).
Proof.
  intros w. unfold malloc. case_match; eexists [_]; cbn;
    (split; [reflexivity|]); (split; [by apply Forall_singleton|]).
  - rewrite dom_insert_L. split; [apply union_subseteq_r|]. split; [|by left].
    intros p Hin _. apply list_elem_of_singleton in Hin.
    injection Hin as ->. by apply elem_of_union_l, elem_of_singleton.
  - split; [done|]. split; [|by left].
    intros p Hin Hp. apply list_elem_of_singleton in Hin.
    by injection Hin as ->.
Qed.

Lemma store_hFileMapping_evolves p v :
  respects (evolves env) (store_hFileMapping p v).
Proof.
  intros w. unfold store_hFileMapping. case_match; [|reflexivity].
  exists []. cbn. rewrite app_nil_r.
  split; [done|]. split; [constructor|].
  split; [rewrite dom_insert_L; apply union_subseteq_r|]. split; [|by left].
  intros q Hq. by apply elem_of_nil in Hq.
Qed.

Lemma store_linkedMem_evolves p v :
  respects (evolves env) (store_linkedMem p v).
Proof.
  intros w. unfold store_linkedMem. case_match; [|reflexivity].
  exists []. cbn. rewrite app_nil_r.
  split; [done|]. split; [constructor|].
  split; [rewrite dom_insert_L; apply union_subseteq_r|]. split; [|by left].
  intros q Hq. by apply elem_of_nil in Hq.
Qed.

Lemma GetStringUTFChars_evolves str :
  respects (evolves env) (GetStringUTFChars env str).
Proof. intros w. unfold GetStringUTFChars. one_event. Qed.

Lemma ReleaseStringUTFChars_evolves str chars :
  respects (evolves env) (ReleaseStringUTFChars str chars).
Proof. intros w. unfold ReleaseStringUTFChars. one_event. Qed.

Lemma NewDirectByteBuffer_evolves addr capacity :
  respects (evolves env) (NewDirectByteBuffer env addr capacity).
Proof. intros w. unfold NewDirectByteBuffer. one_event. Qed.

Lemma FindClass_evolves name : respects (evolves env) (FindClass env name).
Proof. intros w. unfold FindClass. one_event. Qed.

Lemma GetMethodID_evolves cls name sig :
  respects (evolves env) (GetMethodID env cls name sig).
Proof. intros w. unfold GetMethodID. one_event. Qed.

Lemma NewObject_evolves cls cid address buffer handle :
  respects (evolves env) (NewObject env cls cid address buffer handle).
Proof. intros w. unfold NewObject. one_event. Qed.

(** The helper throws [error_class], whatever the message. *)
Lemma throwIllegalStateException_run message w :
  throwIllegalStateException env message w =
  Ok 0 (log (EvThrowNew (error_class env) message)
          (set_pending (Some (error_class env, message))
             (log (EvFindClass "java/lang/NoClassDefFoundError" (error_class env))
                w))).
Proof. reflexivity. Qed.

Lemma throwIllegalStateException_evolves message :
  respects (evolves env) (throwIllegalStateException env message).
Proof.
  intros w. rewrite throwIllegalStateException_run.
  eexists [_; _]. cbn. rewrite <- app_assoc.
  split; [reflexivity|]. split; [by repeat constructor|].
  split; [done|]. split; [|eauto].
  intros p Hin. apply elem_of_cons in Hin as [Hin|Hin]; [done|].
  by apply list_elem_of_singleton in Hin.
Qed.
End Evolution.

#[global] Hint Resolve OpenFileMappingA_evolves CreateFileMappingA_evolves
  MapViewOfFile_evolves UnmapViewOfFile_evolves CloseHandle_evolves
  malloc_evolves store_hFileMapping_evolves store_linkedMem_evolves
  GetStringUTFChars_evolves ReleaseStringUTFChars_evolves
  NewDirectByteBuffer_evolves FindClass_evolves GetMethodID_evolves
  NewObject_evolves throwIllegalStateException_evolves : evolve.

(** ** [nOpen], all paths *)

Lemma nOpen_evolves env clazz handle :
  respects (evolves env) (nOpen env clazz handle).
Proof. unfold nOpen. evolve. Qed.

(** Once a release has been logged, it stays in the trace of whatever the
    rest of the program does. *)
Lemma stuck_release env {A} (P : M A) w0 w1 pre e a w' :
  respects (evolves env) P →
  trace w1 = trace w0 ++ pre → e ∈ pre → is_release e = true →
  P w1 = Ok a w' →
  ¬ Forall (λ e, is_release e = false) (new_events w0 w').
Proof.
  intros HP Hpre Hin He Hrun Hok.
  specialize (HP w1). rewrite Hrun in HP. destruct HP as (evs & Ht & _).
  cbn [final] in Ht.
  rewrite (new_events_app w0 w' (pre ++ evs)) in Hok
    by (by rewrite Ht, Hpre, app_assoc).
  apply Forall_app in Hok as [Hok _].
  rewrite Forall_forall in Hok. specialize (Hok e Hin). congruence.
Qed.

Ltac stuck env e :=
  intros Hrun;
  exfalso;
  match goal with
  | Hrun : ?P ?w1 = Ok _ _, Hok : Forall _ (new_events ?w0 _) |- _ =>
      refine (stuck_release env P w0 w1 _ (e _) _ _ _ _ _ _ Hrun Hok);
      [ evolve | trace_eq | in_list | reflexivity ]
  end.

(** ** [nOpen], path by path *)

(** Neither opened nor created: the whole run. *)
Lemma nOpen_create_fails env clazz handle w :
  can_open env (utf_chars env handle) = false →
  can_create env (utf_chars env handle) = false →
  ∃ w', nOpen env clazz handle w = Ok NULL w'
    ∧ trace w' = trace w ++
        [EvGetStringUTFChars handle (utf_chars env handle);
         EvOpenFileMappingA FILE_MAP_READ false (utf_chars env handle) NULL;
         EvCreateFileMappingA INVALID_HANDLE_VALUE NULL PAGE_READWRITE 0
           MUMBLE_LINK_BYTES (utf_chars env handle) NULL;
         EvReleaseStringUTFChars handle (utf_chars env handle);
         EvFindClass "java/lang/NoClassDefFoundError" (error_class env);
         EvThrowNew (error_class env) "Failed to create FileMapping.";
         EvMapViewOfFile NULL FILE_MAP_READ 0 0 MUMBLE_LINK_BYTES NULL;
         EvCloseHandle NULL false]
    ∧ jvm_pending w' =
        Some (error_class env, "Failed to create FileMapping."%string)
    ∧ os_handles w' = os_handles w
    ∧ os_views w' = os_views w
    ∧ heap w' = heap w.
Proof.
  intros Hopen Hcreate. unfold nOpen.
  step. unfold GetStringUTFChars at 1. tidy.
  step. unfold OpenFileMappingA at 1. rewrite Hopen. tidy.
  change (NULL =? NULL) with true. cbv iota.
  step. unfold CreateFileMappingA at 1. rewrite Hcreate. tidy.
  change (NULL =? NULL) with true.
  step. unfold ReleaseStringUTFChars at 1. tidy.
  rewrite when_true. step. rewrite throwIllegalStateException_run. tidy.
  do 2 step.
  step. unfold MapViewOfFile at 1. rewrite live_handle_NULL. tidy.
  change (NULL =? NULL) with true. cbv iota.
  step. unfold CloseHandle at 1. rewrite live_handle_NULL. tidy.
  eexists. split; [reflexivity|]. split; [trace_eq|]. done.
Qed.


(** ** [nClose] *)

(** The whole effect of [nClose] on a valid session block. *)
Lemma nClose_valid clazz address w i :
  deref w address = Some i →
  ∃ w', nClose clazz address w = Ok tt w'
    ∧ trace w' = trace w ++
        [EvUnmapViewOfFile (linkedMem i) (mapped_view w (linkedMem i));
         EvCloseHandle (hFileMapping i) (live_handle w (hFileMapping i));
         EvFree address]
    ∧ os_views w' = delete (linkedMem i) (os_views w)
    ∧ os_handles w' =
        (if live_handle w (hFileMapping i)
         then os_handles w ∖ {[hFileMapping i]} else os_handles w)
    ∧ heap w' = delete address (heap w)
    ∧ jvm_pending w' = jvm_pending w.
Proof.
  intros Hi.
  assert (Hd : ∀ w0, heap w0 = heap w → deref w0 address = Some i).
  { intros w0 Hw0. unfold deref in *. by rewrite Hw0. }
  unfold nClose.
  step. unfold load_linkedMem at 1. rewrite Hi. tidy.
  step. unfold UnmapViewOfFile at 1.
  destruct (mapped_view w (linkedMem i)) eqn:Hv; tidy.
  all: step; unfold load_hFileMapping at 1; rewrite Hd by reflexivity; tidy.
  all: step; unfold CloseHandle at 1.
  all: match goal with
       | |- context [live_handle ?w0 _] =>
           change (live_handle w0 (hFileMapping i))
             with (live_handle w (hFileMapping i))
       end.
  all: destruct (live_handle w (hFileMapping i)) eqn:Hh; tidy.
  all: unfold free; rewrite Hd by reflexivity.
  all: eexists; split; [reflexivity|]; split; [trace_eq|].
  all: cbn [os_views os_handles heap jvm_pending
            log set_handles set_views set_heap].
  all: repeat split; try reflexivity.
  all: symmetry; apply delete_id.
  all: unfold mapped_view in Hv; apply bool_decide_eq_false in Hv.
  all: by apply eq_None_not_Some.
Qed.

(** ** The properties of [nOpen] and [nClose] *)

(** C1. The direct byte buffer cannot be created, every other step
    succeeds: [nOpen] unmaps the view, then closes the handle, but throws
    nothing (the guard [hFileMapping == NULL] is false, the local still
    holds the closed handle) and does not return: it goes on to look up
    the class and the constructor and returns the wrapper [900], built on
    a null buffer and on a session block whose handle and view are
    gone. *)
Example nOpen_buffer_failure_returns_wrapper :
  nOpen env_no_buffer 7 9 host_world =
  Ok 900
    {| os_handles := {[1; 2; 3; 4]};
       os_views := {[1 := 4096; 2 := 64]};
       heap := {[1 := {| hFileMapping := 5; linkedMem := 3 |}]};
       jvm_pending := None;
       trace :=
         [EvGetStringUTFChars 9 "MumbleLink";
          EvOpenFileMappingA FILE_MAP_READ false "MumbleLink" 5;
          EvReleaseStringUTFChars 9 "MumbleLink";
          EvMapViewOfFile 5 FILE_MAP_READ 0 0 MUMBLE_LINK_BYTES 3;
          EvMalloc 1;
          EvNewDirectByteBuffer 3 MUMBLE_LINK_BYTES NULL;
          EvUnmapViewOfFile 3 true;
          EvCloseHandle 5 true;
          EvFindClass "com/github/gw2toolbelt/gw2ml/MumbleLink" 700;
          EvGetMethodID 700 "<init>"
            "(JLjava/nio/ByteBuffer;Ljava/lang/String;)V" 800;
          EvNewObject 700 800 1 NULL 9 900] |}.
Proof. vm_compute. reflexivity. Qed.

(** C2. Two runs in which the resources of [nOpen] are not held as
    stated. When only the byte buffer fails, [nOpen] returns a wrapper
    and leaves no exception pending, yet the session it returns holds
    neither its handle nor its view. When the byte buffer and the
    constructor lookup both fail, the unwinding runs twice:
    [UnmapViewOfFile] and [CloseHandle] are each called a second time on
    a resource already released. *)
Example nOpen_failure_paths_mismanage_resources :
  (∃ w', nOpen env_no_buffer 7 9 host_world = Ok 900 w'
     ∧ jvm_pending w' = None
     ∧ deref w' 1 = Some {| hFileMapping := 5; linkedMem := 3 |}
     ∧ live_handle w' 5 = false
     ∧ mapped_view w' 3 = false)
  ∧ (∃ w', nOpen env_no_buffer_no_ctor 7 9 host_world = Ok NULL w'
     ∧ List.filter (unmaps 3) (new_events host_world w') =
         [EvUnmapViewOfFile 3 true; EvUnmapViewOfFile 3 false]
     ∧ List.filter (closes 5) (new_events host_world w') =
         [EvCloseHandle 5 true; EvCloseHandle 5 false]).
Proof.
  split.
  - exists (final (nOpen env_no_buffer 7 9 host_world)).
    do 4 (split; [vm_compute; reflexivity|]). vm_compute; reflexivity.
  - exists (final (nOpen env_no_buffer_no_ctor 7 9 host_world)).
    do 2 (split; [vm_compute; reflexivity|]). vm_compute; reflexivity.
Qed.

(** C3. The object opens and mapping it fails: [nOpen] closes the handle
    and returns [NULL], and that is all. No exception is thrown: the
    trace has no [EvThrowNew] and nothing is pending. *)
Example nOpen_mapping_failure_is_silent :
  nOpen env_map_fails 7 9 host_world =
  Ok NULL
    {| os_handles := {[1; 2; 3; 4]};
       os_views := {[1 := 4096; 2 := 64]};
       heap := ∅;
       jvm_pending := None;
       trace :=
         [EvGetStringUTFChars 9 "MumbleLink";
          EvOpenFileMappingA FILE_MAP_READ false "MumbleLink" 5;
          EvReleaseStringUTFChars 9 "MumbleLink";
          EvMapViewOfFile 5 FILE_MAP_READ 0 0 MUMBLE_LINK_BYTES NULL;
          EvCloseHandle 5 true] |}.
Proof. vm_compute. reflexivity. Qed.



(** C5. On a valid session reference [nClose] makes exactly three
    calls, in this order: [UnmapViewOfFile] on the session's view,
    [CloseHandle] on the session's handle, [free] on the session block.
    The handle is never closed before the view is unmapped. *)
Theorem nClose_order clazz address w i :
  deref w address = Some i →
  ∃ r1 r2 w',
    nClose clazz address w = Ok tt w'
    ∧ new_events w w' =
        [EvUnmapViewOfFile (linkedMem i) r1;
         EvCloseHandle (hFileMapping i) r2;
         EvFree address]
    ∧ os_views w' !! linkedMem i = None
    ∧ live_handle w' (hFileMapping i) = false
    ∧ heap w' !! address = None.
Proof.
  intros Hi.
  destruct (nClose_valid clazz address w i Hi)
    as (w' & Hrun & Ht & Hv & Hh & Hm & _).
  exists (mapped_view w (linkedMem i)), (live_handle w (hFileMapping i)), w'.
  split; [done|]. split; [by apply new_events_app|].
  split; [rewrite Hv; apply lookup_delete_eq|].
  split; [|rewrite Hm; apply lookup_delete_eq].
  unfold live_handle in *. rewrite Hh.
  destruct (bool_decide (hFileMapping i ∈ os_handles w)) eqn:Hin;
    destruct (hFileMapping i =? NULL) eqn:Hnull; cbn [andb negb];
    rewrite ?andb_false_r; try done.
  - rewrite bool_decide_eq_false_2; [done|].
    intros Hin'. apply elem_of_difference in Hin' as [_ Hin'].
    apply Hin'. by apply elem_of_singleton.
  - by rewrite Hin.
Qed.

Lemma nClose_order_witness :
  ∃ r1 r2 w',
    nClose 7 1 session_world = Ok tt w'
    ∧ new_events session_world w' =
        [EvUnmapViewOfFile 3 r1; EvCloseHandle 5 r2; EvFree 1].
Proof.
  destruct (nClose_order 7 1 session_world
              {| hFileMapping := 5; linkedMem := 3 |} eq_refl)
    as (r1 & r2 & w' & Hrun & Hev & _).
  exists r1, r2, w'. split; assumption.
Defined.

(** C6. [nClose] reports nothing: on a valid session reference it
    returns normally and leaves the pending exception of the JVM as it
    was, and it makes all three calls whether or not [UnmapViewOfFile]
    and [CloseHandle] succeed. The results [r1] and [r2] of the two
    releases, false when the view is not mapped or the handle is not
    live, only appear in the trace. *)
Theorem nClose_never_signals clazz address w i :
  deref w address = Some i →
  ∃ w',
    nClose clazz address w = Ok tt w'
    ∧ jvm_pending w' = jvm_pending w
    ∧ new_events w w' =
        [EvUnmapViewOfFile (linkedMem i) (mapped_view w (linkedMem i));
         EvCloseHandle (hFileMapping i) (live_handle w (hFileMapping i));
         EvFree address]
    ∧ heap w' = delete address (heap w).
Proof.
  intros Hi.
  destruct (nClose_valid clazz address w i Hi)
    as (w' & Hrun & Ht & _ & _ & Hm & Hp).
  exists w'. split; [done|]. split; [done|].
  split; [by apply new_events_app | done].
Qed.

Lemma nClose_never_signals_witness :
  ∃ w',
    nClose 7 1 stale_world = Ok tt w'
    ∧ jvm_pending w' = None
    ∧ new_events stale_world w' =
        [EvUnmapViewOfFile 3 false; EvCloseHandle 5 false; EvFree 1].
Proof.
  destruct (nClose_never_signals 7 1 stale_world
              {| hFileMapping := 5; linkedMem := 3 |} eq_refl)
    as (w' & Hrun & Hp & Hev & _).
  exists w'. split; [exact Hrun|]. split; [exact Hp|]. exact Hev.
Defined.

(** C7. A call of [nOpen] that returns successfully and hands back no
    byte view. The direct byte buffer cannot be created and every other
    step succeeds: [nOpen] returns the wrapper [900] with no exception
    pending, the one [NewDirectByteBuffer] call of the run returned
    [NULL], that [NULL] is the buffer given to the constructor, and the
    view [3] it should have wrapped is unmapped by the time [nOpen]
    returns. *)
Example nOpen_returns_wrapper_without_view :
  ∃ w',
    nOpen env_no_buffer 7 9 host_world = Ok 900 w'
    ∧ jvm_pending w' = None
    ∧ List.filter wraps (new_events host_world w') =
        [EvNewDirectByteBuffer 3 MUMBLE_LINK_BYTES NULL]
    ∧ last (new_events host_world w') =
        Some (EvNewObject 700 800 1 NULL 9 900)
    ∧ mapped_view w' 3 = false.
Proof.
  exists (final (nOpen env_no_buffer 7 9 host_world)).
  do 4 (split; [vm_compute; reflexivity|]). vm_compute; reflexivity.
Qed.

(** X14. In a run of [nOpen] that released nothing (no view was unmapped
    and no handle closed during the call) and returned a wrapper, the
    constructor was handed the direct byte buffer made by
    [NewDirectByteBuffer] over the very address [v] that [MapViewOfFile]
    returned, with capacity 5460: the mapped bytes are wrapped, not
    copied. On return [v] is still mapped with 5460 bytes, the handle
    [h] is live, and the session block holds the pair. *)
Theorem nOpen_view_zero_copy env clazz handle w obj w' :
  nOpen env clazz handle w = Ok obj w' →
  obj ≠ NULL →
  Forall (λ e, is_release e = false) (new_events w w') →
  ∃ h v inst buffer cls cid,
    [EvMapViewOfFile h FILE_MAP_READ 0 0 MUMBLE_LINK_BYTES v;
     EvMalloc inst;
     EvNewDirectByteBuffer v MUMBLE_LINK_BYTES buffer;
     EvFindClass "com/github/gw2toolbelt/gw2ml/MumbleLink" cls;
     EvGetMethodID cls "<init>" "(JLjava/nio/ByteBuffer;Ljava/lang/String;)V" cid;
     EvNewObject cls cid inst buffer handle obj]
      `suffix_of` new_events w w'
    ∧ v ≠ NULL ∧ buffer ≠ NULL
    ∧ os_views w' !! v = Some MUMBLE_LINK_BYTES
    ∧ live_handle w' h = true
    ∧ deref w' inst = Some {| hFileMapping := h; linkedMem := v |}.
Proof.
  intros Hrun Hobj Hok.
  destruct (can_open env (utf_chars env handle)) eqn:Hopen;
    [|destruct (can_create env (utf_chars env handle)) eqn:Hcreate].
  3: { exfalso.
       destruct (nOpen_create_fails env clazz handle w Hopen Hcreate)
         as (w1 & Hrun1 & Ht & _).
       rewrite Hrun1 in Hrun. injection Hrun as _ <-.
       rewrite (new_events_app _ _ _ Ht), Forall_forall in Hok.
       specialize (Hok (EvCloseHandle NULL false)).
       discriminate Hok. in_list. }
  (* a handle was obtained, by opening or by creating *)
  all: revert Hrun; unfold nOpen.
  all: step; unfold GetStringUTFChars at 1; tidy.
  all: step; unfold OpenFileMappingA at 1; rewrite Hopen; tidy.
  2: change (NULL =? NULL) with true; cbv iota;
     step; unfold CreateFileMappingA at 1; rewrite Hcreate; tidy.
  all: step; unfold ReleaseStringUTFChars at 1; tidy.
  2: rewrite !when_false; step.
  all: step.
  (* mapping *)
  all: step; unfold MapViewOfFile at 1; tidy.
  all: rewrite (live_handle_acquired _ (os_handles w)) by reflexivity.
  all: cbn [andb]; destruct (can_map env _) eqn:Hmap; tidy.
  2, 4: change (NULL =? NULL) with true; cbv iota; step;
    unfold CloseHandle at 1; destruct (live_handle _ _); tidy;
    stuck env (EvCloseHandle (fresh_id (os_handles w))).
  all: rewrite !when_false.
  (* the session block *)
  all: step; unfold malloc at 1; destruct (can_malloc env); tidy.
  2, 4: step; unfold store_hFileMapping at 1; rewrite deref_NULL; discriminate.
  all: step; unfold store_hFileMapping at 1;
    erewrite deref_fresh by (cbn [heap]; apply lookup_insert_eq); tidy.
  all: step; unfold store_linkedMem at 1;
    erewrite deref_fresh by (cbn [heap]; apply lookup_insert_eq); tidy.
  (* the wrapper: a failed sub-step unmaps, which the hypothesis excludes *)
  all: step; unfold NewDirectByteBuffer at 1; tidy.
  all: destruct (jni_NewDirectByteBuffer env _ _ =? NULL) eqn:Hbuf;
    [ rewrite when_true; step; unfold UnmapViewOfFile at 1;
      destruct (mapped_view _ _); tidy;
      stuck env (EvUnmapViewOfFile (fresh_id (dom (os_views w))))
    | rewrite when_false; step ].
  all: step; unfold FindClass at 1; tidy.
  all: destruct (jni_FindClass env _ =? NULL) eqn:Hcls;
    [ rewrite when_true; step; unfold UnmapViewOfFile at 1;
      destruct (mapped_view _ _); tidy;
      stuck env (EvUnmapViewOfFile (fresh_id (dom (os_views w))))
    | rewrite when_false; step ].
  all: step; unfold GetMethodID at 1; tidy.
  all: destruct (jni_GetMethodID env _ _ _ =? NULL) eqn:Hcid;
    [ rewrite when_true; step; unfold UnmapViewOfFile at 1;
      destruct (mapped_view _ _); tidy;
      stuck env (EvUnmapViewOfFile (fresh_id (dom (os_views w))))
    | rewrite when_false; step ].
  (* every step succeeded *)
  all: unfold NewObject; intros Hrun; injection Hrun as <- <-.
  all: eexists _, _, _, _, _, _.
  all: split;
    [ erewrite new_events_app by trace_eq;
      first [by eexists [_; _; _] | by eexists [_; _; _; _]] |].
  all: split; [apply fresh_id_not_NULL|].
  all: split; [by apply Z.eqb_neq|].
  all: split; [cbn; apply lookup_insert_eq|].
  all: split; [by apply (live_handle_acquired _ (os_handles w))|].
  all: apply deref_fresh; cbn; apply lookup_insert_eq.
Qed.

Lemma nOpen_view_zero_copy_witness :
  ∃ v buffer,
    EvNewDirectByteBuffer v MUMBLE_LINK_BYTES buffer
      ∈ new_events host_world opened_world
    ∧ buffer ≠ NULL
    ∧ os_views opened_world !! v = Some MUMBLE_LINK_BYTES.
Proof.
  assert (Hrun : nOpen env_ok 7 9 host_world = Ok 900 opened_world)
    by (vm_compute; reflexivity).
  assert (Hobj : 900 ≠ NULL) by discriminate.
  assert (Hok : Forall (λ e, is_release e = false)
                  (new_events host_world opened_world))
    by (vm_compute; repeat constructor).
  destruct (nOpen_view_zero_copy env_ok 7 9 host_world 900 opened_world
              Hrun Hobj Hok)
    as (h & v & inst & buffer & cls & cid & [pre Hsuf] & _ & Hb & Hv & _).
  exists v, buffer. split; [|split; assumption].
  rewrite Hsuf. apply elem_of_app. right. in_list.
Defined.

(** C8. Whatever the message, [throwIllegalStateException] looks up
    java/lang/NoClassDefFoundError and throws that class. Hence every
    exception [nOpen] throws, on any path, in any environment, is of
    that one class, and so is the exception pending when it returns, if
    [nOpen] made one pending. *)
Theorem nOpen_throws_NoClassDefFoundError env :
  (∀ message w,
     throwIllegalStateException env message w =
     Ok 0 (log (EvThrowNew (jni_FindClass env "java/lang/NoClassDefFoundError")
                  message)
             (set_pending
                (Some (jni_FindClass env "java/lang/NoClassDefFoundError",
                       message))
                (log (EvFindClass "java/lang/NoClassDefFoundError"
                        (jni_FindClass env "java/lang/NoClassDefFoundError"))
                   w))))
  ∧ (∀ clazz handle w,
       Forall (throws_only (jni_FindClass env "java/lang/NoClassDefFoundError"))
         (new_events w (final (nOpen env clazz handle w)))
       ∧ (jvm_pending (final (nOpen env clazz handle w)) = jvm_pending w
          ∨ ∃ message,
              jvm_pending (final (nOpen env clazz handle w)) =
              Some (jni_FindClass env "java/lang/NoClassDefFoundError",
                    message))).
Proof.
  split; [intros; apply throwIllegalStateException_run|].
  intros clazz handle w.
  destruct (nOpen_evolves env clazz handle w) as (evs & Ht & Hb & _ & _ & Hp).
  rewrite (new_events_app _ _ _ Ht). split; [|exact Hp].
  eapply Forall_impl; [exact Hb|]. by intros e [_ He].
Qed.

(** C9. [nOpen] never calls [free]. A session block it obtained from
    [malloc] is therefore still allocated when [nOpen] is over, on every
    path, the failure branches of the wrapper construction included, and
    no block that was allocated before the call went away. The call that
    frees a session block is [nClose]. *)
Theorem nOpen_never_frees env clazz handle w :
  Forall (λ e, is_free e = false)
    (new_events w (final (nOpen env clazz handle w)))
  ∧ (∀ p, EvMalloc p ∈ new_events w (final (nOpen env clazz handle w)) →
          p ≠ NULL →
          is_Some (heap (final (nOpen env clazz handle w)) !! p))
  ∧ dom (heap w) ⊆ dom (heap (final (nOpen env clazz handle w)))
  ∧ (∀ clazz' address i w0,
       deref w0 address = Some i →
       ∃ w1, nClose clazz' address w0 = Ok tt w1
         ∧ EvFree address ∈ new_events w0 w1
         ∧ heap w1 !! address = None).
Proof.
  destruct (nOpen_evolves env clazz handle w) as (evs & Ht & Hb & Hd & Hm & _).
  rewrite (new_events_app _ _ _ Ht).
  split; [|split; [|split]].
  - eapply Forall_impl; [exact Hb|]. by intros e [He _].
  - intros p Hin Hp. apply elem_of_dom. by apply Hm.
  - exact Hd.
  - intros clazz' address i w0 Hi.
    destruct (nClose_valid clazz' address w0 i Hi)
      as (w1 & Hrun & Ht1 & _ & _ & Hh & _).
    exists w1. split; [done|].
    split; [rewrite (new_events_app _ _ _ Ht1); in_list|].
    rewrite Hh. apply lookup_delete_eq.
Qed.

(** C10. [nClose] reads through the reference it is given without
    testing it. When the reference is [NULL], or is no allocated session
    block, the very first read, of [instance->linkedMem], is undefined
    behaviour: the run goes wrong in the state it started in, with no
    call made, no exception thrown and no normal return. *)
Theorem nClose_invalid_reference clazz address w :
  deref w address = None →
  nClose clazz address w = Fault w.
Proof.
  intros Hi. unfold nClose. rewrite run_bind.
  unfold load_linkedMem. by rewrite Hi.
Qed.

Lemma nClose_invalid_reference_witness :
  nClose 7 NULL session_world = Fault session_world
  ∧ nClose 7 2 session_world = Fault session_world.
Proof.
  split.
  - apply (nClose_invalid_reference 7 NULL session_world). reflexivity.
  - apply (nClose_invalid_reference 7 2 session_world). reflexivity.
Defined.

(** ** Further properties *)

(** *** A run of [nOpen] that releases nothing *)

(** The whole effect of such a run: one handle, one view and one session
    block were acquired, all fresh, and the wrapper was constructed on
    them. Whether the constructor returned an object is left open. *)
Lemma nOpen_quiet_run env clazz handle w obj w' :
  nOpen env clazz handle w = Ok obj w' →
  Forall (λ e, is_release e = false) (new_events w w') →
  ∃ pre buffer cls cid,
    trace w' = trace w ++ pre ++
      [EvMapViewOfFile (fresh_id (os_handles w)) FILE_MAP_READ 0 0
         MUMBLE_LINK_BYTES (fresh_id (dom (os_views w)));
       EvMalloc (fresh_id (dom (heap w)));
       EvNewDirectByteBuffer (fresh_id (dom (os_views w))) MUMBLE_LINK_BYTES
         buffer;
       EvFindClass "com/github/gw2toolbelt/gw2ml/MumbleLink" cls;
       EvGetMethodID cls "<init>" "(JLjava/nio/ByteBuffer;Ljava/lang/String;)V" cid;
       EvNewObject cls cid (fresh_id (dom (heap w))) buffer handle obj]
    ∧ os_handles w' = {[fresh_id (os_handles w)]} ∪ os_handles w
    ∧ os_views w' =
        <[fresh_id (dom (os_views w)) := MUMBLE_LINK_BYTES]> (os_views w)
    ∧ heap w' =
        <[fresh_id (dom (heap w)) :=
            {| hFileMapping := fresh_id (os_handles w);
               linkedMem := fresh_id (dom (os_views w)) |}]> (heap w)
    ∧ buffer ≠ NULL ∧ cls ≠ NULL ∧ cid ≠ NULL.
Proof.
  intros Hrun Hok.
  destruct (can_open env (utf_chars env handle)) eqn:Hopen;
    [|destruct (can_create env (utf_chars env handle)) eqn:Hcreate].
  3: { exfalso.
       destruct (nOpen_create_fails env clazz handle w Hopen Hcreate)
         as (w1 & Hrun1 & Ht & _).
       rewrite Hrun1 in Hrun. injection Hrun as _ <-.
       rewrite (new_events_app _ _ _ Ht), Forall_forall in Hok.
       specialize (Hok (EvCloseHandle NULL false)).
       discriminate Hok. in_list. }
  all: revert Hrun; unfold nOpen.
  all: step; unfold GetStringUTFChars at 1; tidy.
  all: step; unfold OpenFileMappingA at 1; rewrite Hopen; tidy.
  2: change (NULL =? NULL) with true; cbv iota;
     step; unfold CreateFileMappingA at 1; rewrite Hcreate; tidy.
  all: step; unfold ReleaseStringUTFChars at 1; tidy.
  2: rewrite !when_false; step.
  all: step.
  all: step; unfold MapViewOfFile at 1; tidy.
  all: rewrite (live_handle_acquired _ (os_handles w)) by reflexivity.
  all: cbn [andb]; destruct (can_map env _) eqn:Hmap; tidy.
  2, 4: change (NULL =? NULL) with true; cbv iota; step;
    unfold CloseHandle at 1; destruct (live_handle _ _); tidy;
    stuck env (EvCloseHandle (fresh_id (os_handles w))).
  all: rewrite !when_false.
  all: step; unfold malloc at 1; destruct (can_malloc env); tidy.
  2, 4: step; unfold store_hFileMapping at 1; rewrite deref_NULL; discriminate.
  all: step; unfold store_hFileMapping at 1;
    erewrite deref_fresh by (cbn [heap]; apply lookup_insert_eq); tidy.
  all: step; unfold store_linkedMem at 1;
    erewrite deref_fresh by (cbn [heap]; apply lookup_insert_eq); tidy.
  all: step; unfold NewDirectByteBuffer at 1; tidy.
  all: destruct (jni_NewDirectByteBuffer env _ _ =? NULL) eqn:Hbuf;
    [ rewrite when_true; step; unfold UnmapViewOfFile at 1;
      destruct (mapped_view _ _); tidy;
      stuck env (EvUnmapViewOfFile (fresh_id (dom (os_views w))))
    | rewrite when_false; step ].
  all: step; unfold FindClass at 1; tidy.
  all: destruct (jni_FindClass env _ =? NULL) eqn:Hcls;
    [ rewrite when_true; step; unfold UnmapViewOfFile at 1;
      destruct (mapped_view _ _); tidy;
      stuck env (EvUnmapViewOfFile (fresh_id (dom (os_views w))))
    | rewrite when_false; step ].
  all: step; unfold GetMethodID at 1; tidy.
  all: destruct (jni_GetMethodID env _ _ _ =? NULL) eqn:Hcid;
    [ rewrite when_true; step; unfold UnmapViewOfFile at 1;
      destruct (mapped_view _ _); tidy;
      stuck env (EvUnmapViewOfFile (fresh_id (dom (os_views w))))
    | rewrite when_false; step ].
  all: unfold NewObject; intros Hrun; injection Hrun as <- <-.
  1: eexists [_; _; _], _, _, _.
  2: eexists [_; _; _; _], _, _, _.
  all: split; [trace_eq|].
  all: cbn [os_handles os_views heap
            log set_handles set_views set_heap set_pending
            hFileMapping linkedMem].
  all: rewrite !insert_insert_eq.
  all: repeat (split; [first [reflexivity | by apply Z.eqb_neq]|]).
  all: by apply Z.eqb_neq.
Qed.

Lemma fresh_id_lookup {A} (m : gmap Z A) : m !! fresh_id (dom m) = None.
Proof. apply not_elem_of_dom, fresh_id_fresh. Qed.

Lemma acquire_release (held : gset Z) (h : Z) :
  h ∉ held → ({[h]} ∪ held) ∖ {[h]} = held.
Proof.
  intros Hh. apply set_eq. intros x.
  rewrite elem_of_difference, elem_of_union, !elem_of_singleton.
  split; [intros [[->|Hx] Hne]; done|].
  intros Hx. split; [by right|]. by intros ->.
Qed.

(** *** Open, then close *)

(** X1. Closing the session of a run of [nOpen] that released nothing
    gives back exactly what the run acquired: both releases succeed, the
    session block is freed, and handles, views and heap are what they
    were before [nOpen]. *)
Theorem nOpen_nClose_round_trip env clazz handle w obj w1 clazz' :
  nOpen env clazz handle w = Ok obj w1 →
  Forall (λ e, is_release e = false) (new_events w w1) →
  ∃ cls cid inst buffer h v w2,
    last (trace w1) = Some (EvNewObject cls cid inst buffer handle obj)
    ∧ nClose clazz' inst w1 = Ok tt w2
    ∧ new_events w1 w2 =
        [EvUnmapViewOfFile v true; EvCloseHandle h true; EvFree inst]
    ∧ os_handles w2 = os_handles w
    ∧ os_views w2 = os_views w
    ∧ heap w2 = heap w.
Proof.
  intros Hrun Hok.
  destruct (nOpen_quiet_run env clazz handle w obj w1 Hrun Hok)
    as (pre & buffer & cls & cid & Ht & Hh & Hv & Hm & _).
  set (h := fresh_id (os_handles w)) in *.
  set (v := fresh_id (dom (os_views w))) in *.
  set (p := fresh_id (dom (heap w))) in *.
  assert (Hd : deref w1 p = Some {| hFileMapping := h; linkedMem := v |}).
  { apply deref_fresh. rewrite Hm. apply lookup_insert_eq. }
  destruct (nClose_valid clazz' p w1 _ Hd)
    as (w2 & Hrun2 & Ht2 & Hv2 & Hh2 & Hm2 & _).
  cbn [hFileMapping linkedMem] in *.
  assert (Hlive : live_handle w1 h = true)
    by (by apply (live_handle_acquired _ (os_handles w))).
  assert (Hmapped : mapped_view w1 v = true).
  { unfold mapped_view. apply bool_decide_eq_true_2.
    rewrite Hv, lookup_insert_eq. by eexists. }
  rewrite Hlive in Hh2, Ht2. rewrite Hmapped in Ht2.
  exists cls, cid, p, buffer, h, v, w2.
  split; [rewrite Ht, !last_app; reflexivity|].
  split; [done|]. split; [by apply new_events_app|].
  split; [rewrite Hh2, Hh; apply acquire_release, fresh_id_fresh|].
  split.
  - rewrite Hv2, Hv. apply delete_insert_id, fresh_id_lookup.
  - rewrite Hm2, Hm. apply delete_insert_id, fresh_id_lookup.
Qed.

Lemma nOpen_nClose_round_trip_witness :
  ∃ inst w2,
    nClose 7 inst opened_world = Ok tt w2
    ∧ os_handles w2 = os_handles host_world
    ∧ os_views w2 = os_views host_world
    ∧ heap w2 = heap host_world.
Proof.
  assert (Hrun : nOpen env_ok 7 9 host_world = Ok 900 opened_world)
    by (vm_compute; reflexivity).
  assert (Hok : Forall (λ e, is_release e = false)
                  (new_events host_world opened_world))
    by (vm_compute; repeat constructor).
  destruct (nOpen_nClose_round_trip env_ok 7 9 host_world 900 opened_world 7
              Hrun Hok)
    as (cls & cid & inst & buffer & h & v & w2 & _ & Hclose & _ & Hh & Hv & Hm).
  exists inst, w2. repeat split; assumption.
Defined.

(** *** What the rest of the process keeps *)

#[global] Instance undisturbed_preorder H0 V0 M0 : PreOrder (undisturbed H0 V0 M0).
Proof.
  split.
  - intros w. split; [|done].
    exists []. by rewrite app_nil_r.
  - intros w1 w2 w3 ((e1 & T1 & F1) & A1 & B1 & C1)
      ((e2 & T2 & F2) & A2 & B2 & C2).
    split; [|split; [|split]]; auto.
    exists (e1 ++ e2). split; [by rewrite T2, T1, app_assoc|].
    by apply Forall_app.
Qed.

Lemma subseteq_delete_absent {A} (m1 m2 : gmap Z A) (i : Z) :
  m1 !! i = None → m1 ⊆ m2 → m1 ⊆ delete i m2.
Proof.
  intros Hi Hsub. apply map_subseteq_spec. intros j x Hj.
  rewrite lookup_delete_ne by (intros ->; congruence).
  by apply (lookup_weaken m1).
Qed.

Lemma subseteq_insert_absent {A} (m1 m2 : gmap Z A) (i : Z) (x : A) :
  m1 !! i = None → m1 ⊆ m2 → m1 ⊆ <[i := x]> m2.
Proof.
  intros Hi Hsub. apply map_subseteq_spec. intros j y Hj.
  rewrite lookup_insert_ne by (intros ->; congruence).
  by apply (lookup_weaken m1).
Qed.

Section Undisturbed.
Variable env : Env.
Variables (H0 : gset Z) (V0 : gmap Z Z) (M0 : gmap Z GW2MLinstance).

(** A state that differs from [w] by one logged call that is no throw. *)
Lemma undisturbed_log (e : Event) (w w' : World) :
  is_throw e = false →
  trace w' = trace w ++ [e] →
  (H0 ⊆ os_handles w → H0 ⊆ os_handles w') →
  (V0 ⊆ os_views w → V0 ⊆ os_views w') →
  (M0 ⊆ heap w → M0 ⊆ heap w') →
  undisturbed H0 V0 M0 w w'.
Proof.
  intros He Ht Hh Hv Hm. split; [|done].
  exists [e]. split; [done|]. by apply Forall_singleton.
Qed.

Ltac logged :=
  cbv zeta; cbn [final];
  match goal with
  | |- undisturbed _ _ _ _ (log ?e _) =>
      apply (undisturbed_log e); [reflexivity | reflexivity | ..];
      cbn [os_handles os_views heap log set_handles set_views set_heap];
      try done
  end.

Lemma OpenFileMappingA_undisturbed access inherit name :
  respects (undisturbed H0 V0 M0) (OpenFileMappingA env access inherit name).
Proof.
  intros w. unfold OpenFileMappingA. case_match; logged.
  intros Hsub. by apply union_subseteq_r'.
Qed.

Lemma CreateFileMappingA_undisturbed hFile attrs protect sizeHigh sizeLow name :
  respects (undisturbed H0 V0 M0)
    (CreateFileMappingA env hFile attrs protect sizeHigh sizeLow name).
Proof.
  intros w. unfold CreateFileMappingA. case_match; logged.
  intros Hsub. by apply union_subseteq_r'.
Qed.

Lemma MapViewOfFile_undisturbed h access offHigh offLow bytes :
  respects (undisturbed H0 V0 M0)
    (MapViewOfFile env h access offHigh offLow bytes).
Proof.
  intros w. unfold MapViewOfFile. destruct (_ && _); logged.
  intros Hsub. etransitivity; [exact Hsub|].
  apply insert_subseteq, fresh_id_lookup.
Qed.

Lemma malloc_undisturbed : respects (undisturbed H0 V0 M0) (malloc env).
Proof.
  intros w. unfold malloc. case_match; logged.
  intros Hsub. etransitivity; [exact Hsub|].
  apply insert_subseteq, fresh_id_lookup.
Qed.

(** Releasing a view or a handle that is not among [V0], [H0]. *)
Lemma UnmapViewOfFile_undisturbed addr :
  V0 !! addr = None →
  respects (undisturbed H0 V0 M0) (UnmapViewOfFile addr).
Proof.
  intros Ha w. unfold UnmapViewOfFile. case_match; logged.
  by apply subseteq_delete_absent.
Qed.

Lemma CloseHandle_undisturbed h :
  h ∉ H0 → respects (undisturbed H0 V0 M0) (CloseHandle h).
Proof.
  intros Hh w. unfold CloseHandle. case_match; logged.
  intros Hsub x Hx. apply elem_of_difference. split; [by apply Hsub|].
  intros Hxh. apply elem_of_singleton in Hxh. by subst.
Qed.

(** Writing to a block that is not among [M0]. *)
Lemma store_hFileMapping_undisturbed p v :
  M0 !! p = None → respects (undisturbed H0 V0 M0) (store_hFileMapping p v).
Proof.
  intros Hp w. unfold store_hFileMapping. case_match; [|reflexivity].
  split; [|split; [done|split; [done|]]].
  - exists []. by rewrite app_nil_r.
  - by apply subseteq_insert_absent.
Qed.

Lemma store_linkedMem_undisturbed p v :
  M0 !! p = None → respects (undisturbed H0 V0 M0) (store_linkedMem p v).
Proof.
  intros Hp w. unfold store_linkedMem. case_match; [|reflexivity].
  split; [|split; [done|split; [done|]]].
  - exists []. by rewrite app_nil_r.
  - by apply subseteq_insert_absent.
Qed.

Lemma GetStringUTFChars_undisturbed str :
  respects (undisturbed H0 V0 M0) (GetStringUTFChars env str).
Proof. intros w. unfold GetStringUTFChars. logged. Qed.

Lemma ReleaseStringUTFChars_undisturbed str chars :
  respects (undisturbed H0 V0 M0) (ReleaseStringUTFChars str chars).
Proof. intros w. unfold ReleaseStringUTFChars. logged. Qed.

Lemma NewDirectByteBuffer_undisturbed addr capacity :
  respects (undisturbed H0 V0 M0) (NewDirectByteBuffer env addr capacity).
Proof. intros w. unfold NewDirectByteBuffer. logged. Qed.

Lemma FindClass_undisturbed name :
  respects (undisturbed H0 V0 M0) (FindClass env name).
Proof. intros w. unfold FindClass. logged. Qed.

Lemma GetMethodID_undisturbed cls name sig :
  respects (undisturbed H0 V0 M0) (GetMethodID env cls name sig).
Proof. intros w. unfold GetMethodID. logged. Qed.

Lemma NewObject_undisturbed cls cid address buffer handle :
  respects (undisturbed H0 V0 M0) (NewObject env cls cid address buffer handle).
Proof. intros w. unfold NewObject. logged. Qed.
End Undisturbed.

Create HintDb undisturbed discriminated.

#[global] Hint Resolve OpenFileMappingA_undisturbed
  CreateFileMappingA_undisturbed MapViewOfFile_undisturbed malloc_undisturbed
  UnmapViewOfFile_undisturbed CloseHandle_undisturbed
  store_hFileMapping_undisturbed store_linkedMem_undisturbed
  GetStringUTFChars_undisturbed ReleaseStringUTFChars_undisturbed
  NewDirectByteBuffer_undisturbed FindClass_undisturbed
  GetMethodID_undisturbed NewObject_undisturbed
  fresh_id_fresh fresh_id_lookup : undisturbed.

(** As [evolve], for a program that throws nowhere and releases only what
    it acquired. *)
Ltac undisturb :=
  repeat first
    [ solve [auto with undisturbed]
    | apply respects_ret; solve [typeclasses eauto]
    | apply respects_when; [typeclasses eauto|]
    | apply respects_bind; [typeclasses eauto| |intros ?]
    | match goal with
      | |- respects _ (if ?c then _ else _) => destruct c
      end ].

(** The explicit state [wk], reached from [w] by acquisitions only. *)
Ltac acquired_only :=
  cbn [final];
  split; [eexists; split; [trace_eq | by repeat constructor]|];
  cbn [os_handles os_views heap log set_handles set_views set_heap set_pending];
  split; [intros _; first [reflexivity | apply union_subseteq_r]|];
  split; intros _;
    first [reflexivity | apply insert_subseteq, fresh_id_lookup].

(** Run the rest of the program [P] from the explicit state it is applied
    to. *)
Ltac then_rest :=
  match goal with
  | |- undisturbed ?H ?V ?M _ (final (?P ?wk)) =>
      transitivity wk;
      [ acquired_only
      | let HP := fresh "HP" in
        assert (HP : respects (undisturbed H V M) P) by undisturb;
        apply HP ]
  end.

(** Once a handle is obtained, whatever happens next. *)
Lemma nOpen_undisturbed env clazz handle w :
  can_open env (utf_chars env handle) = true
  ∨ can_create env (utf_chars env handle) = true →
  undisturbed (os_handles w) (os_views w) (heap w)
    w (final (nOpen env clazz handle w)).
Proof.
  intros Hacq.
  destruct (can_open env (utf_chars env handle)) eqn:Hopen;
    [|destruct Hacq as [Hacq|Hcreate]; [done|]].
  all: unfold nOpen.
  all: step; unfold GetStringUTFChars at 1; tidy.
  all: step; unfold OpenFileMappingA at 1; rewrite Hopen; tidy.
  2: change (NULL =? NULL) with true; cbv iota;
     step; unfold CreateFileMappingA at 1; rewrite Hcreate; tidy.
  all: step; unfold ReleaseStringUTFChars at 1; tidy.
  2: rewrite !when_false; step.
  all: step.
  all: step; unfold MapViewOfFile at 1; tidy.
  all: rewrite (live_handle_acquired _ (os_handles w)) by reflexivity.
  all: cbn [andb]; destruct (can_map env _) eqn:Hmap; tidy.
  2, 4: change (NULL =? NULL) with true; cbv iota; then_rest.
  all: rewrite !when_false.
  all: step; unfold malloc at 1; destruct (can_malloc env); tidy.
  2, 4: step; unfold store_hFileMapping at 1; rewrite deref_NULL;
    acquired_only.
  all: then_rest.
Qed.

(** X2. Once [nOpen] holds a handle, by opening or by creating, it
    calls [ThrowNew] on no path, whatever fails afterwards and however
    often. The three [throwIllegalStateException] calls in the failure
    branches of the wrapper construction are unreachable, their guard
    [hFileMapping == NULL] being false whenever a view was mapped, and
    the mapping failure has no throw at all. This is about what the
    native code throws; an exception the JVM raises on its own inside a
    failed JNI call is another matter. *)
Theorem nOpen_throws_nothing_with_handle env clazz handle w :
  can_open env (utf_chars env handle) = true
  ∨ can_create env (utf_chars env handle) = true →
  Forall (λ e, is_throw e = false)
    (new_events w (final (nOpen env clazz handle w))).
Proof.
  intros Hacq.
  destruct (nOpen_undisturbed env clazz handle w Hacq)
    as ((evs & Ht & Hf) & _).
  by rewrite (new_events_app _ _ _ Ht).
Qed.

Lemma nOpen_throws_nothing_with_handle_witness :
  Forall (λ e, is_throw e = false)
    (new_events host_world
       (final (nOpen env_no_buffer_no_ctor 7 9 host_world))).
Proof.
  apply (nOpen_throws_nothing_with_handle env_no_buffer_no_ctor 7 9 host_world).
  left. reflexivity.
Defined.

(** X3. On every path, [nOpen] leaves alone what the process held before
    the call: every handle that was live is live, every view that was
    mapped is mapped with the same size, every heap block is allocated
    with the same contents. The releases of its failure branches, repeated
    or not, only ever reach the handle and the view of this call. *)
Theorem nOpen_keeps_other_resources env clazz handle w :
  os_handles w ⊆ os_handles (final (nOpen env clazz handle w))
  ∧ os_views w ⊆ os_views (final (nOpen env clazz handle w))
  ∧ heap w ⊆ heap (final (nOpen env clazz handle w)).
Proof.
  destruct (can_open env (utf_chars env handle)) eqn:Hopen;
    [|destruct (can_create env (utf_chars env handle)) eqn:Hcreate].
  3: { destruct (nOpen_create_fails env clazz handle w Hopen Hcreate)
         as (w' & -> & _ & _ & Hh & Hv & Hm).
       cbn [final]. by rewrite Hh, Hv, Hm. }
  all: destruct (nOpen_undisturbed env clazz handle w) as (_ & Hh & Hv & Hm);
    [by auto|].
  all: split; [by apply Hh|split; [by apply Hv|by apply Hm]].
Qed.

(** *** Failures [nOpen] does not report *)

(** X4. Whenever [nOpen] holds a handle and [MapViewOfFile] fails, it
    closes that handle, successfully, and returns [NULL]. Handles, views
    and heap are back to what they were, and nothing tells the caller
    why: no exception is thrown and none is made pending. *)
Theorem nOpen_mapping_failure env clazz handle w :
  can_open env (utf_chars env handle) = true
  ∨ can_create env (utf_chars env handle) = true →
  can_map env (fresh_id (os_handles w)) = false →
  ∃ w', nOpen env clazz handle w = Ok NULL w'
    ∧ last (trace w') = Some (EvCloseHandle (fresh_id (os_handles w)) true)
    ∧ Forall (λ e, is_throw e = false) (new_events w w')
    ∧ jvm_pending w' = jvm_pending w
    ∧ os_handles w' = os_handles w
    ∧ os_views w' = os_views w
    ∧ heap w' = heap w.
Proof.
  intros Hacq Hmap.
  destruct (can_open env (utf_chars env handle)) eqn:Hopen;
    [|destruct Hacq as [Hacq|Hcreate]; [done|]].
  all: unfold nOpen.
  all: step; unfold GetStringUTFChars at 1; tidy.
  all: step; unfold OpenFileMappingA at 1; rewrite Hopen; tidy.
  2: change (NULL =? NULL) with true; cbv iota;
     step; unfold CreateFileMappingA at 1; rewrite Hcreate; tidy.
  all: step; unfold ReleaseStringUTFChars at 1; tidy.
  2: rewrite !when_false; step.
  all: step.
  all: step; unfold MapViewOfFile at 1; tidy.
  all: rewrite (live_handle_acquired _ (os_handles w)) by reflexivity.
  all: rewrite Hmap; cbn [andb]; tidy.
  all: change (NULL =? NULL) with true; cbv iota.
  all: step; unfold CloseHandle at 1.
  all: rewrite (live_handle_acquired _ (os_handles w)) by reflexivity; tidy.
  all: rewrite run_ret.
  all: eexists; split; [reflexivity|].
  all: split; [apply last_snoc|].
  all: split; [erewrite new_events_app by trace_eq; by repeat constructor|].
  all: split; [reflexivity|].
  all: split; [apply acquire_release, fresh_id_fresh|].
  all: split; reflexivity.
Qed.

Lemma nOpen_mapping_failure_witness :
  ∃ w', nOpen env_map_fails 7 9 host_world = Ok NULL w'
    ∧ jvm_pending w' = None
    ∧ os_handles w' = os_handles host_world.
Proof.
  destruct (nOpen_mapping_failure env_map_fails 7 9 host_world)
    as (w' & Hrun & _ & _ & Hp & Hh & _).
  - left. reflexivity.
  - reflexivity.
  - exists w'. split; [exact Hrun|]. split; [exact Hp|exact Hh].
Defined.

(** X5. The result of [malloc] is not tested. Whenever the object is
    mapped and [malloc] returns [NULL], the store to
    [instance->hFileMapping] goes through the null pointer: the run goes
    wrong right after the allocation, holding the handle and the view it
    has just acquired. *)
Theorem nOpen_allocation_failure env clazz handle w :
  can_open env (utf_chars env handle) = true
  ∨ can_create env (utf_chars env handle) = true →
  can_map env (fresh_id (os_handles w)) = true →
  can_malloc env = false →
  ∃ w', nOpen env clazz handle w = Fault w'
    ∧ last (trace w') = Some (EvMalloc NULL)
    ∧ os_handles w' = {[fresh_id (os_handles w)]} ∪ os_handles w
    ∧ os_views w' =
        <[fresh_id (dom (os_views w)) := MUMBLE_LINK_BYTES]> (os_views w)
    ∧ heap w' = heap w.
Proof.
  intros Hacq Hmap Hmalloc.
  destruct (can_open env (utf_chars env handle)) eqn:Hopen;
    [|destruct Hacq as [Hacq|Hcreate]; [done|]].
  all: unfold nOpen.
  all: step; unfold GetStringUTFChars at 1; tidy.
  all: step; unfold OpenFileMappingA at 1; rewrite Hopen; tidy.
  2: change (NULL =? NULL) with true; cbv iota;
     step; unfold CreateFileMappingA at 1; rewrite Hcreate; tidy.
  all: step; unfold ReleaseStringUTFChars at 1; tidy.
  2: rewrite !when_false; step.
  all: step.
  all: step; unfold MapViewOfFile at 1; tidy.
  all: rewrite (live_handle_acquired _ (os_handles w)) by reflexivity.
  all: rewrite Hmap; cbn [andb]; tidy.
  all: step; unfold malloc at 1; rewrite Hmalloc; tidy.
  all: step; unfold store_hFileMapping at 1; rewrite deref_NULL.
  all: eexists; split; [reflexivity|].
  all: split; [apply last_snoc|].
  all: repeat split.
Qed.

Lemma nOpen_allocation_failure_witness :
  ∃ w', nOpen env_no_memory 7 9 host_world = Fault w'
    ∧ last (trace w') = Some (EvMalloc NULL).
Proof.
  destruct (nOpen_allocation_failure env_no_memory 7 9 host_world)
    as (w' & Hrun & Hlast & _).
  - left. reflexivity.
  - reflexivity.
  - reflexivity.
  - exists w'. split; [exact Hrun|exact Hlast].
Defined.

Lemma live_handle_elem w h :
  h ∈ os_handles w → h ≠ NULL → live_handle w h = true.
Proof.
  intros Hin Hh. unfold live_handle.
  rewrite bool_decide_eq_true_2 by done.
  apply Z.eqb_neq in Hh. by rewrite Hh.
Qed.

(** X6. The result of [NewObject] is not tested either. When [nOpen]
    returns [NULL] without having released anything, every lookup
    succeeded and the constructor call, the last call of the run, is
    what failed. [nOpen] unwinds nothing on that path: the handle, the
    view and the session block of this call, none of which existed
    before, are all still held when it returns, and the caller has no
    session reference to close them with. *)
Theorem nOpen_constructor_failure_leaks env clazz handle w w' :
  nOpen env clazz handle w = Ok NULL w' →
  Forall (λ e, is_release e = false) (new_events w w') →
  ∃ h v inst cls cid buffer,
    last (trace w') = Some (EvNewObject cls cid inst buffer handle NULL)
    ∧ cls ≠ NULL ∧ cid ≠ NULL ∧ buffer ≠ NULL
    ∧ live_handle w' h = true ∧ (h ∉ os_handles w)
    ∧ os_views w' !! v = Some MUMBLE_LINK_BYTES ∧ os_views w !! v = None
    ∧ deref w' inst = Some {| hFileMapping := h; linkedMem := v |}
    ∧ heap w !! inst = None.
Proof.
  intros Hrun Hok.
  destruct (nOpen_quiet_run env clazz handle w NULL w' Hrun Hok)
    as (pre & buffer & cls & cid & Ht & Hh & Hv & Hm & Hb & Hc & Hi).
  exists (fresh_id (os_handles w)), (fresh_id (dom (os_views w))),
    (fresh_id (dom (heap w))), cls, cid, buffer.
  split; [rewrite Ht, !last_app; reflexivity|].
  do 3 (split; [done|]).
  split; [by apply (live_handle_acquired _ (os_handles w))|].
  split; [apply fresh_id_fresh|].
  split; [rewrite Hv; apply lookup_insert_eq|].
  split; [apply fresh_id_lookup|].
  split; [apply deref_fresh; rewrite Hm; apply lookup_insert_eq|].
  apply fresh_id_lookup.
Qed.

Lemma nOpen_constructor_failure_leaks_witness :
  ∃ h v inst,
    live_handle (final (nOpen env_no_object 7 9 host_world)) h = true
    ∧ os_views (final (nOpen env_no_object 7 9 host_world)) !! v =
        Some MUMBLE_LINK_BYTES
    ∧ deref (final (nOpen env_no_object 7 9 host_world)) inst =
        Some {| hFileMapping := h; linkedMem := v |}.
Proof.
  assert (Hrun : nOpen env_no_object 7 9 host_world =
                 Ok NULL (final (nOpen env_no_object 7 9 host_world)))
    by (vm_compute; reflexivity).
  assert (Hok : Forall (λ e, is_release e = false)
                  (new_events host_world
                     (final (nOpen env_no_object 7 9 host_world))))
    by (vm_compute; repeat constructor).
  destruct (nOpen_constructor_failure_leaks env_no_object 7 9 host_world _
              Hrun Hok)
    as (h & v & inst & _ & _ & _ & _ & _ & _ & _ & Hh & _ & Hv & _ & Hd & _).
  exists h, v, inst. split; [exact Hh|]. split; [exact Hv|exact Hd].
Defined.

(** *** Several sessions *)

(** X7. Two runs of [nOpen] that release nothing, one after the other, on
    the same name or on different ones, give two sessions that share
    nothing: the session blocks, the handles and the views are pairwise
    distinct, and after the second run both sessions are whole. Nothing is
    looked up or reused from the first call. *)
Theorem nOpen_twice_independent
    env1 env2 clazz1 clazz2 handle1 handle2 w obj1 w1 obj2 w2 :
  nOpen env1 clazz1 handle1 w = Ok obj1 w1 →
  Forall (λ e, is_release e = false) (new_events w w1) →
  nOpen env2 clazz2 handle2 w1 = Ok obj2 w2 →
  Forall (λ e, is_release e = false) (new_events w1 w2) →
  ∃ i1 i2 s1 s2,
    (∃ cls cid buffer,
       last (trace w1) = Some (EvNewObject cls cid i1 buffer handle1 obj1))
    ∧ (∃ cls cid buffer,
         last (trace w2) = Some (EvNewObject cls cid i2 buffer handle2 obj2))
    ∧ i1 ≠ i2
    ∧ hFileMapping s1 ≠ hFileMapping s2
    ∧ linkedMem s1 ≠ linkedMem s2
    ∧ deref w2 i1 = Some s1 ∧ deref w2 i2 = Some s2
    ∧ live_handle w2 (hFileMapping s1) = true
    ∧ live_handle w2 (hFileMapping s2) = true
    ∧ os_views w2 !! linkedMem s1 = Some MUMBLE_LINK_BYTES
    ∧ os_views w2 !! linkedMem s2 = Some MUMBLE_LINK_BYTES.
Proof.
  intros Hrun1 Hok1 Hrun2 Hok2.
  destruct (nOpen_quiet_run env1 clazz1 handle1 w obj1 w1 Hrun1 Hok1)
    as (pre1 & b1 & c1 & m1 & Ht1 & Hh1 & Hv1 & Hm1 & _).
  destruct (nOpen_quiet_run env2 clazz2 handle2 w1 obj2 w2 Hrun2 Hok2)
    as (pre2 & b2 & c2 & m2 & Ht2 & Hh2 & Hv2 & Hm2 & _).
  set (h1 := fresh_id (os_handles w)) in *.
  set (v1 := fresh_id (dom (os_views w))) in *.
  set (p1 := fresh_id (dom (heap w))) in *.
  set (h2 := fresh_id (os_handles w1)) in *.
  set (v2 := fresh_id (dom (os_views w1))) in *.
  set (p2 := fresh_id (dom (heap w1))) in *.
  assert (Hh : h1 ≠ h2).
  { intros Heq. apply (fresh_id_fresh (os_handles w1)). fold h2.
    rewrite <- Heq, Hh1. by apply elem_of_union_l, elem_of_singleton. }
  assert (Hv : v1 ≠ v2).
  { intros Heq. pose proof (fresh_id_lookup (os_views w1)) as Hnone.
    fold v2 in Hnone. by rewrite <- Heq, Hv1, lookup_insert_eq in Hnone. }
  assert (Hp : p1 ≠ p2).
  { intros Heq. pose proof (fresh_id_lookup (heap w1)) as Hnone.
    fold p2 in Hnone. by rewrite <- Heq, Hm1, lookup_insert_eq in Hnone. }
  exists p1, p2, {| hFileMapping := h1; linkedMem := v1 |},
    {| hFileMapping := h2; linkedMem := v2 |}.
  cbn [hFileMapping linkedMem].
  split; [exists c1, m1, b1; rewrite Ht1, !last_app; reflexivity|].
  split; [exists c2, m2, b2; rewrite Ht2, !last_app; reflexivity|].
  do 3 (split; [done|]).
  split.
  { apply deref_fresh.
    by rewrite Hm2, lookup_insert_ne, Hm1, lookup_insert_eq. }
  split; [apply deref_fresh; rewrite Hm2; apply lookup_insert_eq|].
  split.
  { apply live_handle_elem; [|apply fresh_id_not_NULL].
    rewrite Hh2, Hh1.
    by apply elem_of_union_r, elem_of_union_l, elem_of_singleton. }
  split; [by apply (live_handle_acquired _ (os_handles w1))|].
  split; [by rewrite Hv2, lookup_insert_ne, Hv1, lookup_insert_eq|].
  rewrite Hv2. apply lookup_insert_eq.
Qed.

Lemma nOpen_twice_independent_witness :
  ∃ i1 i2 s1 s2,
    i1 ≠ i2
    ∧ hFileMapping s1 ≠ hFileMapping s2
    ∧ linkedMem s1 ≠ linkedMem s2
    ∧ deref (final (nOpen env_ok 7 9 opened_world)) i1 = Some s1
    ∧ deref (final (nOpen env_ok 7 9 opened_world)) i2 = Some s2.
Proof.
  assert (Hrun1 : nOpen env_ok 7 9 host_world = Ok 900 opened_world)
    by (vm_compute; reflexivity).
  assert (Hok1 : Forall (λ e, is_release e = false)
                   (new_events host_world opened_world))
    by (vm_compute; repeat constructor).
  assert (Hrun2 : nOpen env_ok 7 9 opened_world =
                  Ok 900 (final (nOpen env_ok 7 9 opened_world)))
    by (vm_compute; reflexivity).
  assert (Hok2 : Forall (λ e, is_release e = false)
                   (new_events opened_world
                      (final (nOpen env_ok 7 9 opened_world))))
    by (vm_compute; repeat constructor).
  destruct (nOpen_twice_independent env_ok env_ok 7 7 9 9 host_world
              900 opened_world 900 _ Hrun1 Hok1 Hrun2 Hok2)
    as (i1 & i2 & s1 & s2 & _ & _ & Hi & Hh & Hv & Hd1 & Hd2 & _).
  exists i1, i2, s1, s2. repeat split; assumption.
Defined.

(** X8. Closing one session leaves every other session whole: as long as
    the two session blocks, their handles and their views differ, the
    other block keeps its contents, the other handle stays as live as it
    was and the other view stays mapped as it was. *)
Theorem nClose_keeps_other_sessions clazz a1 a2 w i1 i2 :
  deref w a1 = Some i1 →
  deref w a2 = Some i2 →
  a1 ≠ a2 →
  hFileMapping i1 ≠ hFileMapping i2 →
  linkedMem i1 ≠ linkedMem i2 →
  ∃ w1, nClose clazz a1 w = Ok tt w1
    ∧ deref w1 a2 = Some i2
    ∧ live_handle w1 (hFileMapping i2) = live_handle w (hFileMapping i2)
    ∧ os_views w1 !! linkedMem i2 = os_views w !! linkedMem i2.
Proof.
  intros H1 H2 Ha Hh Hv.
  destruct (nClose_valid clazz a1 w i1 H1)
    as (w1 & Hrun & _ & Hv1 & Hh1 & Hm1 & _).
  exists w1. split; [done|]. split; [|split].
  - unfold deref in *. destruct (a2 =? NULL); [done|].
    by rewrite Hm1, lookup_delete_ne.
  - unfold live_handle at 1 2. f_equal. rewrite Hh1.
    destruct (live_handle w (hFileMapping i1)); [|done].
    apply bool_decide_ext. rewrite elem_of_difference, elem_of_singleton.
    split; [by intros [? _]|]. intros Hin. split; [done|]. congruence.
  - by rewrite Hv1, lookup_delete_ne.
Qed.

Lemma nClose_keeps_other_sessions_witness :
  ∃ w1, nClose 7 1 two_sessions_world = Ok tt w1
    ∧ deref w1 2 = Some {| hFileMapping := 6; linkedMem := 4 |}
    ∧ live_handle w1 6 = true
    ∧ os_views w1 !! 4 = Some MUMBLE_LINK_BYTES.
Proof.
  destruct (nClose_keeps_other_sessions 7 1 2 two_sessions_world
              {| hFileMapping := 5; linkedMem := 3 |}
              {| hFileMapping := 6; linkedMem := 4 |})
    as (w1 & Hrun & Hd & Hh & Hv); try reflexivity; try discriminate.
  cbn [hFileMapping linkedMem] in Hh, Hv.
  exists w1. split; [exact Hrun|]. split; [exact Hd|].
  split; [rewrite Hh; vm_compute; reflexivity|].
  rewrite Hv. vm_compute. reflexivity.
Defined.

(** X9. A session reference is dead after its first [nClose]: the block
    it points to has been freed, so a second [nClose] on the same
    reference reads freed memory. It goes wrong at its first read, before
    any release is attempted. *)
Theorem nClose_twice_goes_wrong clazz clazz' address w i :
  deref w address = Some i →
  ∃ w1, nClose clazz address w = Ok tt w1
    ∧ deref w1 address = None
    ∧ nClose clazz' address w1 = Fault w1.
Proof.
  intros Hi.
  destruct (nClose_valid clazz address w i Hi)
    as (w1 & Hrun & _ & _ & _ & Hm & _).
  assert (Hd : deref w1 address = None).
  { unfold deref. destruct (address =? NULL); [done|].
    rewrite Hm. apply lookup_delete_eq. }
  exists w1. split; [done|]. split; [done|].
  unfold nClose. rewrite run_bind. unfold load_linkedMem. by rewrite Hd.
Qed.

Lemma nClose_twice_goes_wrong_witness :
  ∃ w1, nClose 7 1 session_world = Ok tt w1
    ∧ nClose 7 1 w1 = Fault w1.
Proof.
  destruct (nClose_twice_goes_wrong 7 7 1 session_world
              {| hFileMapping := 5; linkedMem := 3 |} eq_refl)
    as (w1 & Hrun & _ & Hagain).
  exists w1. split; [exact Hrun|exact Hagain].
Defined.

(** *** The failure branches of the wrapper construction *)

Lemma mapped_view_inserted w V a x :
  os_views w = <[a := x]> V → mapped_view w a = true.
Proof.
  intros Hw. unfold mapped_view. apply bool_decide_eq_true_2.
  rewrite Hw, lookup_insert_eq. by eexists.
Qed.

Lemma mapped_view_deleted w V a :
  os_views w = delete a V → mapped_view w a = false.
Proof.
  intros Hw. unfold mapped_view. apply bool_decide_eq_false_2.
  rewrite Hw, lookup_delete_eq. by intros [? ?].
Qed.

Lemma live_handle_closed w held h :
  os_handles w = held ∖ {[h]} → live_handle w h = false.
Proof.
  intros Hw. unfold live_handle. rewrite bool_decide_eq_false_2; [done|].
  rewrite Hw, elem_of_difference, elem_of_singleton. by intros [_ ?].
Qed.

(** One failure branch, [when true (Unmap;; Close;; ret tt)]: the
    releases succeed the first time and fail afterwards. *)
Ltac unwind :=
  rewrite when_true; step; unfold UnmapViewOfFile at 1;
  match goal with
  | |- context [mapped_view ?w0 ?a] =>
      first [ rewrite (mapped_view_inserted w0 _ a _ eq_refl)
            | rewrite (mapped_view_deleted w0 _ a eq_refl) ]
  end; tidy;
  step; unfold CloseHandle at 1;
  match goal with
  | |- context [live_handle ?w0 (fresh_id ?held)] =>
      first [ rewrite (live_handle_acquired w0 held eq_refl)
            | rewrite (live_handle_closed w0 _ (fresh_id held) eq_refl) ]
  end; tidy;
  do 2 step.

(** X10. When the class is found, no failure after the allocation stops
    [nOpen] before the constructor call: whether or not the byte buffer
    and the constructor id were obtained, it goes on to call
    [NewObject (cls, cid, instance, buffer, handle)], and what that call
    does is what [nOpen] does. Each of the two sub-steps that failed
    (byte buffer, constructor id) has run the unwinding by then, so
    [UnmapViewOfFile] and [CloseHandle] have been called once per failed
    sub-step. After at least one failure the handle and the view are
    gone at the time of the constructor call; after none they are held.
    Either way the session block is allocated and names them. *)
Theorem nOpen_unwinds_once_per_failure env clazz handle w :
  can_open env (utf_chars env handle) = true
  ∨ can_create env (utf_chars env handle) = true →
  can_map env (fresh_id (os_handles w)) = true →
  can_malloc env = true →
  jni_FindClass env "com/github/gw2toolbelt/gw2ml/MumbleLink" ≠ NULL →
  let h := fresh_id (os_handles w) in
  let v := fresh_id (dom (os_views w)) in
  let p := fresh_id (dom (heap w)) in
  let buffer := jni_NewDirectByteBuffer env v MUMBLE_LINK_BYTES in
  let cls := jni_FindClass env "com/github/gw2toolbelt/gw2ml/MumbleLink" in
  let cid :=
    jni_GetMethodID env cls "<init>"
      "(JLjava/nio/ByteBuffer;Ljava/lang/String;)V" in
  let failures :=
    (Nat.b2n (Z.eqb buffer NULL) + Nat.b2n (Z.eqb cid NULL))%nat in
  ∃ w1,
    nOpen env clazz handle w = NewObject env cls cid p buffer handle w1
    ∧ length (List.filter (unmaps v) (new_events w w1)) = failures
    ∧ length (List.filter (closes h) (new_events w w1)) = failures
    ∧ (failures ≠ 0%nat →
       os_handles w1 = os_handles w ∧ os_views w1 = os_views w)
    ∧ (failures = 0%nat →
       os_handles w1 = {[h]} ∪ os_handles w
       ∧ os_views w1 = <[v := MUMBLE_LINK_BYTES]> (os_views w))
    ∧ heap w1 = <[p := {| hFileMapping := h; linkedMem := v |}]> (heap w).
Proof.
  intros Hacq Hmap Hmalloc Hfound h v p buffer cls cid failures.
  subst h v p buffer cls cid failures.
  apply Z.eqb_neq in Hfound.
  destruct (can_open env (utf_chars env handle)) eqn:Hopen;
    [|destruct Hacq as [Hacq|Hcreate]; [done|]].
  all: unfold nOpen.
  all: step; unfold GetStringUTFChars at 1; tidy.
  all: step; unfold OpenFileMappingA at 1; rewrite Hopen; tidy.
  2: change (NULL =? NULL) with true; cbv iota;
     step; unfold CreateFileMappingA at 1; rewrite Hcreate; tidy.
  all: step; unfold ReleaseStringUTFChars at 1; tidy.
  2: rewrite !when_false; step.
  all: step.
  all: step; unfold MapViewOfFile at 1; tidy.
  all: rewrite (live_handle_acquired _ (os_handles w)) by reflexivity.
  all: rewrite Hmap; cbn [andb]; tidy.
  all: rewrite !when_false.
  all: step; unfold malloc at 1; rewrite Hmalloc; tidy.
  all: step; unfold store_hFileMapping at 1;
    erewrite deref_fresh by (cbn [heap]; apply lookup_insert_eq); tidy.
  all: step; unfold store_linkedMem at 1;
    erewrite deref_fresh by (cbn [heap]; apply lookup_insert_eq); tidy.
  all: step; unfold NewDirectByteBuffer at 1; tidy.
  all: destruct (jni_NewDirectByteBuffer env _ _ =? NULL) eqn:Hbuf;
    [unwind | rewrite when_false; step].
  all: step; unfold FindClass at 1; tidy.
  all: rewrite Hfound, when_false; step.
  all: step; unfold GetMethodID at 1; tidy.
  all: destruct (jni_GetMethodID env _ _ _ =? NULL) eqn:Hcid;
    [unwind | rewrite when_false; step].
  all: eexists; split; [reflexivity|].
  all: erewrite new_events_app by trace_eq.
  all: cbn [os_handles os_views heap log set_handles set_views set_heap
            set_pending hFileMapping linkedMem
            List.filter unmaps closes length app Nat.b2n Nat.add].
  all: rewrite ?Z.eqb_refl; cbn [length].
  all: rewrite !insert_insert_eq.
  all: split; [reflexivity|]; split; [reflexivity|].
  all: split; [|split; [|reflexivity]].
  all: first
    [ discriminate
    | by intros []
    | intros _; split; reflexivity
    | intros _; split;
      [ apply acquire_release, fresh_id_fresh
      | apply delete_insert_id, fresh_id_lookup ] ].
Qed.

Lemma nOpen_unwinds_once_per_failure_witness :
  ∃ w1,
    nOpen env_no_buffer_no_ctor 7 9 host_world =
      NewObject env_no_buffer_no_ctor 700 NULL 1 NULL 9 w1
    ∧ length (List.filter (closes 5) (new_events host_world w1)) = 2%nat
    ∧ os_handles w1 = os_handles host_world
    ∧ os_views w1 = os_views host_world.
Proof.
  assert (Hfound : jni_FindClass env_no_buffer_no_ctor
                     "com/github/gw2toolbelt/gw2ml/MumbleLink" ≠ NULL)
    by discriminate.
  destruct (nOpen_unwinds_once_per_failure env_no_buffer_no_ctor 7 9
              host_world (or_introl eq_refl) eq_refl eq_refl Hfound)
    as (w1 & Hrun & _ & Hcloses & Hgone & _ & _).
  assert (Hh : fresh_id (os_handles host_world) = 5)
    by (vm_compute; reflexivity).
  assert (Hp : fresh_id (dom (heap host_world)) = 1)
    by (vm_compute; reflexivity).
  rewrite Hh in Hcloses. rewrite Hp in Hrun.
  exists w1. split; [exact Hrun|]. split; [exact Hcloses|].
  apply Hgone. discriminate.
Defined.

(** *** What a run may call *)

#[global] Instance emits_only_preorder p : PreOrder (emits_only p).
Proof.
  split.
  - intros w. exists []. by rewrite app_nil_r.
  - intros w1 w2 w3 (e1 & T1 & F1) (e2 & T2 & F2).
    exists (e1 ++ e2). split; [by rewrite T2, T1, app_assoc|].
    by apply Forall_app.
Qed.

Section Emits.
Variable env : Env.
Variable p : Event → bool.

Lemma emits_one (e : Event) (w w' : World) :
  p e = true → trace w' = trace w ++ [e] → emits_only p w w'.
Proof. intros He Ht. exists [e]. split; [done|]. by apply Forall_singleton. Qed.

Ltac emitted :=
  cbv zeta; cbn [final];
  match goal with
  | |- emits_only _ _ (log ?e _) => apply (emits_one e); [auto | reflexivity]
  end.

Lemma OpenFileMappingA_emits access inherit name :
  (∀ r, p (EvOpenFileMappingA access inherit name r) = true) →
  respects (emits_only p) (OpenFileMappingA env access inherit name).
Proof. intros Hp w. unfold OpenFileMappingA. case_match; emitted. Qed.

Lemma CreateFileMappingA_emits hFile attrs protect sizeHigh sizeLow name :
  (∀ r, p (EvCreateFileMappingA hFile attrs protect sizeHigh sizeLow name r)
        = true) →
  respects (emits_only p)
    (CreateFileMappingA env hFile attrs protect sizeHigh sizeLow name).
Proof. intros Hp w. unfold CreateFileMappingA. case_match; emitted. Qed.

Lemma MapViewOfFile_emits h access offHigh offLow bytes :
  (∀ r, p (EvMapViewOfFile h access offHigh offLow bytes r) = true) →
  respects (emits_only p) (MapViewOfFile env h access offHigh offLow bytes).
Proof. intros Hp w. unfold MapViewOfFile. destruct (_ && _); emitted. Qed.

Lemma UnmapViewOfFile_emits addr :
  (∀ r, p (EvUnmapViewOfFile addr r) = true) →
  respects (emits_only p) (UnmapViewOfFile addr).
Proof. intros Hp w. unfold UnmapViewOfFile. case_match; emitted. Qed.

Lemma CloseHandle_emits h :
  (∀ r, p (EvCloseHandle h r) = true) →
  respects (emits_only p) (CloseHandle h).
Proof. intros Hp w. unfold CloseHandle. case_match; emitted. Qed.

Lemma malloc_emits :
  (∀ r, p (EvMalloc r) = true) → respects (emits_only p) (malloc env).
Proof. intros Hp w. unfold malloc. case_match; emitted. Qed.

Lemma store_hFileMapping_emits a v :
  respects (emits_only p) (store_hFileMapping a v).
Proof.
  intros w. unfold store_hFileMapping. case_match; [|reflexivity].
  exists []. cbn. by rewrite app_nil_r.
Qed.

Lemma store_linkedMem_emits a v :
  respects (emits_only p) (store_linkedMem a v).
Proof.
  intros w. unfold store_linkedMem. case_match; [|reflexivity].
  exists []. cbn. by rewrite app_nil_r.
Qed.

Lemma GetStringUTFChars_emits str :
  (∀ r, p (EvGetStringUTFChars str r) = true) →
  respects (emits_only p) (GetStringUTFChars env str).
Proof. intros Hp w. unfold GetStringUTFChars. emitted. Qed.

Lemma ReleaseStringUTFChars_emits str chars :
  p (EvReleaseStringUTFChars str chars) = true →
  respects (emits_only p) (ReleaseStringUTFChars str chars).
Proof. intros Hp w. unfold ReleaseStringUTFChars. emitted. Qed.

Lemma NewDirectByteBuffer_emits addr capacity :
  (∀ r, p (EvNewDirectByteBuffer addr capacity r) = true) →
  respects (emits_only p) (NewDirectByteBuffer env addr capacity).
Proof. intros Hp w. unfold NewDirectByteBuffer. emitted. Qed.

Lemma FindClass_emits name :
  (∀ r, p (EvFindClass name r) = true) →
  respects (emits_only p) (FindClass env name).
Proof. intros Hp w. unfold FindClass. emitted. Qed.

Lemma GetMethodID_emits cls name sig :
  (∀ r, p (EvGetMethodID cls name sig r) = true) →
  respects (emits_only p) (GetMethodID env cls name sig).
Proof. intros Hp w. unfold GetMethodID. emitted. Qed.

Lemma NewObject_emits cls cid address buffer handle :
  (∀ r, p (EvNewObject cls cid address buffer handle r) = true) →
  respects (emits_only p) (NewObject env cls cid address buffer handle).
Proof. intros Hp w. unfold NewObject. emitted. Qed.

Lemma ThrowNew_emits cls message :
  p (EvThrowNew cls message) = true →
  respects (emits_only p) (ThrowNew cls message).
Proof. intros Hp w. unfold ThrowNew. emitted. Qed.
End Emits.

(** As [evolve], for [emits_only p] with a [p] that computes on the shape
    of an event. *)
Ltac emit :=
  unfold throwIllegalStateException;
  repeat first
    [ apply respects_ret; solve [typeclasses eauto]
    | apply respects_when; [typeclasses eauto|]
    | apply respects_bind; [typeclasses eauto| |intros ?]
    | match goal with
      | |- respects _ (if ?c then _ else _) => destruct c
      end
    | apply store_hFileMapping_emits
    | apply store_linkedMem_emits
    | first [ apply OpenFileMappingA_emits | apply CreateFileMappingA_emits
            | apply MapViewOfFile_emits | apply UnmapViewOfFile_emits
            | apply CloseHandle_emits | apply malloc_emits
            | apply GetStringUTFChars_emits | apply ReleaseStringUTFChars_emits
            | apply NewDirectByteBuffer_emits | apply FindClass_emits
            | apply GetMethodID_emits | apply NewObject_emits
            | apply ThrowNew_emits ];
      intros; reflexivity ].

(** X11. On every path [nOpen] asks for read access only when it opens
    and when it maps, maps the whole 5460 bytes from offset 0, creates
    the object read-write over exactly 5460 bytes of the paging file,
    and gives its byte buffers a capacity of exactly the 5460 bytes
    mapped. *)
Theorem nOpen_asks_read_only_full_size env clazz handle w :
  Forall (λ e, asks_as_nOpen e = true)
    (new_events w (final (nOpen env clazz handle w))).
Proof.
  assert (H : respects (emits_only asks_as_nOpen) (nOpen env clazz handle))
    by (unfold nOpen; emit).
  destruct (H w) as (evs & Ht & Hf).
  by rewrite (new_events_app _ _ _ Ht).
Qed.

(** X12. On every path [nOpen] obtains the characters of the name once,
    first of all, and gives them back once, with the pointer it
    obtained. Between the two it only opens and creates; after giving
    them back it neither reads them nor gives them back again, whether
    it then succeeds, fails or goes wrong. *)
Theorem nOpen_releases_chars_once env clazz handle w :
  ∃ pre post,
    new_events w (final (nOpen env clazz handle w)) =
      EvGetStringUTFChars handle (utf_chars env handle)
      :: pre ++ EvReleaseStringUTFChars handle (utf_chars env handle) :: post
    ∧ Forall (λ e, string_call e = false ∧ reads_chars e = true) pre
    ∧ Forall (λ e, leaves_chars e = true) post.
Proof.
  destruct (can_open env (utf_chars env handle)) eqn:Hopen;
    [|destruct (can_create env (utf_chars env handle)) eqn:Hcreate].
  all: unfold nOpen.
  all: step; unfold GetStringUTFChars at 1; tidy.
  all: step; unfold OpenFileMappingA at 1; rewrite Hopen; tidy.
  2, 3: change (NULL =? NULL) with true; cbv iota;
     step; unfold CreateFileMappingA at 1; rewrite Hcreate; tidy.
  all: step; unfold ReleaseStringUTFChars at 1; tidy.
  all: match goal with
       | |- context [final (?P ?wk)] =>
           let HP := fresh "HP" in
           assert (HP : respects (emits_only leaves_chars) P) by emit;
           destruct (HP wk) as (post & Ht & Hpost)
       end.
  1: eexists [_], post.
  2, 3: eexists [_; _], post.
  all: split; [apply new_events_app; rewrite Ht; trace_eq|].
  all: split; [by repeat constructor|exact Hpost].
Qed.
